(** * quad_pid: the altitude / attitude PD controller of the quadrotor demo

    A shallow embedding of [quad_pid.py].  The script builds a MuJoCo model,
    then loops: read the pose of the body, compute a PD control output,
    mix it into four rotor commands, write them into [sim.data.ctrl], step the
    simulator and render.

    Numbers.  The script computes with IEEE-754 doubles; the embedding
    idealises them as real numbers ([R]), so [0.001] is the real 1/1000 and
    every statement below is about exact real arithmetic.

    The simulator.  MuJoCo is an external collaborator: its data is a record
    of the three arrays the script touches, and its physics is a parameter
    [mj_step] of the loop. *)

From Stdlib Require Import Reals Lra List ZArith String Bool Lia.
Import ListNotations.
Local Open Scope R_scope.

(** ** Exceptions *)

(** The two ways the array code of the script can fail: an index out of
    range, or operands whose shapes do not fit. *)
Inductive exn : Type :=
| IndexError
| ValueError.

Inductive res (A : Type) : Type :=
| Ok (a : A)
| Raise (x : exn).

Arguments Ok {A} a.
Arguments Raise {A} x.

Definition bind {A B : Type} (m : res A) (k : A -> res B) : res B :=
  match m with
  | Ok a => k a
  | Raise x => Raise x
  end.

Notation "x <- m ;; k" := (bind m (fun x => k))
  (at level 61, m at next level, right associativity).

(** ** The numpy operations the script uses *)

Module Np.

(** A one-dimensional array of floats, and an array of rows. *)
Definition ndarray : Type := list R.
Definition matrix : Type := list ndarray.

(** [v[i]] for a literal index [i >= 0]. *)
Definition getitem (v : ndarray) (i : nat) : res R :=
  match nth_error v i with
  | Some r => Ok r
  | None => Raise IndexError
  end.

(** [m[i][j]]. *)
Definition getitem2 (m : matrix) (i j : nat) : res R :=
  match nth_error m i with
  | Some row => getitem row j
  | None => Raise IndexError
  end.

(** [v[i] = r], in place: the array with slot [i] replaced. *)
Fixpoint setitem (v : ndarray) (i : nat) (r : R) : res ndarray :=
  match v, i with
  | [], _ => Raise IndexError
  | _ :: tl, O => Ok (r :: tl)
  | hd :: tl, S k => tl' <- setitem tl k r ;; Ok (hd :: tl')
  end.

Fixpoint zip_with (op : R -> R -> R) (a b : ndarray) : ndarray :=
  match a, b with
  | x :: a', y :: b' => op x y :: zip_with op a' b'
  | _, _ => []
  end.

(** An elementwise binary operation on two one-dimensional arrays, with
    numpy's broadcasting: equal lengths, or one operand of length one. *)
Definition broadcast (op : R -> R -> R) (a b : ndarray) : res ndarray :=
  if Nat.eqb (List.length a) (List.length b) then Ok (zip_with op a b)
  else match a, b with
       | [x], _ => Ok (map (fun y => op x y) b)
       | _, [y] => Ok (map (fun x => op x y) a)
       | _, _ => Raise ValueError
       end.

Definition add : ndarray -> ndarray -> res ndarray := broadcast Rplus.
Definition sub : ndarray -> ndarray -> res ndarray := broadcast Rminus.

(** [a += b]: the sum is stored in [a], so it must have the shape of [a]. *)
Definition iadd (a b : ndarray) : res ndarray :=
  r <- add a b ;;
  if Nat.eqb (List.length r) (List.length a) then Ok r else Raise ValueError.

(** [v / s] for a Python float [s]. *)
Definition div_scalar (v : ndarray) (s : R) : ndarray :=
  map (fun x => x / s) v.

(** The inner product of a row and a vector of the same length. *)
Fixpoint dot (row v : ndarray) : res R :=
  match row, v with
  | [], [] => Ok 0
  | x :: row', y :: v' => s <- dot row' v' ;; Ok (x * y + s)
  | _, _ => Raise ValueError
  end.

(** [np.matmul(M, v)] for a two-dimensional [M] and a one-dimensional [v]. *)
Fixpoint matmul (M : matrix) (v : ndarray) : res ndarray :=
  match M with
  | [] => Ok []
  | row :: M' => r <- dot row v ;; rs <- matmul M' v ;; Ok (r :: rs)
  end.

(** [np.arctan2(y, x)]: the angle of the point [(x, y)], in (-PI, PI];
    0 at the origin. *)
Definition arctan2 (y x : R) : R :=
  if Rlt_dec 0 x then atan (y / x)
  else if Rlt_dec x 0 then
         if Rle_dec 0 y then atan (y / x) + PI else atan (y / x) - PI
       else if Rlt_dec 0 y then PI / 2
            else if Rlt_dec y 0 then - (PI / 2)
                 else 0.

End Np.

Import Np.

(** ** Python values *)

(** The global [e] is the int [0] before the first tick and an array after
    it. *)
Inductive pyval : Type :=
| PyInt (z : Z)
| NdArray (v : ndarray).

(** [a - p] for an array [a]: a Python int is broadcast over the array. *)
Definition sub_py (a : ndarray) (p : pyval) : res ndarray :=
  match p with
  | PyInt z => Ok (map (fun x => x - IZR z) a)
  | NdArray b => sub a b
  end.

(** ** Constants of the script *)

Definition dt : R := 0.001.
Definition gravity : R := 9.81.
Definition mass : R := 0.3.

Definition x_d : ndarray := [0.5; 0.0; 0.0; 0.0].

Definition kpz : R := 4.
Definition kpphi : R := 0.01.
Definition kptheta : R := 0.01.
Definition kppsi : R := 0.01.

Definition K_p : matrix :=
  [ [kpz; 0; 0; 0];
    [0; kpphi; 0; 0];
    [0; 0; kptheta; 0];
    [0; 0; 0; kppsi] ].

Definition kdz : R := 0.01.
Definition kdphi : R := 0.01.
Definition kdtheta : R := 0.01.
Definition kdpsi : R := 0.01.

Definition K_d : matrix :=
  [ [kdz; 0; 0; 0];
    [0; kdphi; 0; 0];
    [0; 0; kdtheta; 0];
    [0; 0; 0; kdpsi] ].

Definition L : R := 0.1.
Definition C : R := 0.1.

Definition a : R := 0.25.
Definition b : R := 1 / (4 * L).
Definition c : R := 1 / (4 * C).

Definition C_R : matrix :=
  [ [a; b; - b; - c];
    [a; - b; - b; c];
    [a; - b; b; - c];
    [a; b; b; c] ].

(** The control range of the four motors in the model description
    ([ctrllimited="true" ctrlrange="0.0 10.0"]). *)
Definition ctrlrange : R * R := (0.0, 10.0).

(** ** The simulator *)

(** The part of [sim.data] the script touches: the orientation matrix and the
    centre of mass of a named body, and the actuator command array. *)
Record MjData : Type := mkData {
  get_body_xmat : string -> matrix;
  get_body_xipos : string -> ndarray;
  ctrl : ndarray
}.

(** [sim] with a count of the calls of [sim.step()], and [viewer] with a
    count of the calls of [viewer.render()]. *)
Record MjSim : Type := mkSim {
  data : MjData;
  nstep : nat
}.

Record MjViewer : Type := mkViewer {
  nrender : nat
}.

(** The values bound during one pass of the loop body. *)
Record Tick : Type := mkTick {
  rotmat : matrix;
  yaw : R;
  pitch : R;
  roll : R;
  x : ndarray;
  e_last : pyval;
  e : ndarray;
  e_dot : ndarray;
  u : ndarray;
  F : ndarray
}.

(** The globals that live across passes, and what was printed. *)
Record State : Type := mkState {
  t : Z;
  e_glob : pyval;
  sim : MjSim;
  viewer : MjViewer;
  stdout : list ndarray
}.

(** ** The loop body *)

(** [u += np.array([u[0] + mass * gravity, 0, 0, 0])]. *)
Definition weight_compensation (u : ndarray) : res ndarray :=
  u0 <- getitem u 0 ;;
  iadd u [u0 + mass * gravity; 0; 0; 0].

(** The three angles of the orientation matrix: [yaw], [pitch] and [roll] as
    the script computes them, in this order. *)
Definition attitude (rotmat : matrix) : res (R * R * R) :=
  r10 <- getitem2 rotmat 1 0 ;;
  r00 <- getitem2 rotmat 0 0 ;;
  let yaw := arctan2 r10 r00 in
  r20 <- getitem2 rotmat 2 0 ;;
  r21 <- getitem2 rotmat 2 1 ;;
  r22 <- getitem2 rotmat 2 2 ;;
  let pitch := arctan2 (- r20) (sqrt (r21 ^ 2 + r22 ^ 2)) in
  let roll := arctan2 r21 r22 in
  Ok (yaw, pitch, roll).

(** [np.matmul(K_p, e) + np.matmul(K_d, e_dot)]. *)
Definition pd_law (e e_dot : ndarray) : res ndarray :=
  kpe <- matmul K_p e ;;
  kde <- matmul K_d e_dot ;;
  add kpe kde.

(** From the read of the rotation matrix to [F = np.matmul(C_R, u)]. *)
Definition control (e_prev : pyval) (d : MjData) : res Tick :=
  let rotmat := get_body_xmat d "quadrotor"%string in
  ypr <- attitude rotmat ;;
  let '(yaw, pitch, roll) := ypr in
  z <- getitem (get_body_xipos d "quadrotor"%string) 2 ;;
  let x := [z; roll; pitch; yaw] in
  let e_last := e_prev in
  e <- sub x_d x ;;
  diff <- sub_py e e_last ;;
  let e_dot := div_scalar diff dt in
  u <- pd_law e e_dot ;;
  u <- weight_compensation u ;;
  F <- matmul C_R u ;;
  Ok (mkTick rotmat yaw pitch roll x e_last e e_dot u F).

(** [sim.data.ctrl[i] = F[i]] for [i = 0, 1, 2, 3], in this order. *)
Definition write_ctrl (F : ndarray) (d : MjData) : res MjData :=
  f0 <- getitem F 0 ;; c0 <- setitem (ctrl d) 0 f0 ;;
  f1 <- getitem F 1 ;; c1 <- setitem c0 1 f1 ;;
  f2 <- getitem F 2 ;; c2 <- setitem c1 2 f2 ;;
  f3 <- getitem F 3 ;; c3 <- setitem c2 3 f3 ;;
  Ok (mkData (get_body_xmat d) (get_body_xipos d) c3).

(** [os.getenv('TESTING') is not None]. *)
Definition testing (env : option string) : bool :=
  match env with
  | Some _ => true
  | None => false
  end.

(** The state when the actuator commands have just been written: the loop
    body up to [sim.data.ctrl[3] = F[3]]. *)
Definition actuate (st : State) : res (Tick * State) :=
  tk <- control (e_glob st) (data (sim st)) ;;
  d <- write_ctrl (F tk) (data (sim st)) ;;
  Ok (tk, mkState (t st) (NdArray (e tk)) (mkSim d (nstep (sim st)))
                  (viewer st) (stdout st ++ [e tk])).

(** One pass of the loop body; the boolean says whether it ended in
    [break]. *)
Definition body (mj_step : MjData -> MjData) (env : option string)
    (st : State) : res (Tick * State * bool) :=
  r <- actuate st ;;
  let (tk, st1) := r in
  let t' := (t st1 + 1)%Z in
  let sim' := mkSim (mj_step (data (sim st1))) (S (nstep (sim st1))) in
  let viewer' := mkViewer (S (nrender (viewer st1))) in
  Ok (tk, mkState t' (e_glob st1) sim' viewer' (stdout st1),
      (100 <? t')%Z && testing env).

(** ** The loop *)

(** How an observation of the loop ends: it left by [break], it died of an
    exception, or it was still looping when the observation stopped. *)
Inductive outcome : Type :=
| Exited (passes : nat) (st : State)
| Crashed (passes : nat) (x : exn)
| Looping (passes : nat) (st : State).

(** [while True: body], observed for at most [fuel] passes; [n] counts the
    passes already made. *)
Fixpoint loop (mj_step : MjData -> MjData) (env : option string)
    (fuel : nat) (n : nat) (st : State) : outcome :=
  match fuel with
  | O => Looping n st
  | S k =>
      match body mj_step env st with
      | Raise x => Crashed n x
      | Ok (_, st', brk) =>
          if brk then Exited (S n) st' else loop mj_step env k (S n) st'
      end
  end.

(** The globals as the script sets them before the loop, for the simulator
    data [d0] of the freshly loaded model. *)
Definition init (d0 : MjData) : State :=
  mkState 0%Z (PyInt 0%Z) (mkSim d0 O) (mkViewer O) [].

Definition run (mj_step : MjData -> MjData) (env : option string)
    (fuel : nat) (d0 : MjData) : outcome :=
  loop mj_step env fuel O (init d0).

(** ** Shapes *)

(** The shapes MuJoCo gives the three arrays for this model: a 3x3
    orientation matrix, a position of three coordinates, and one command slot
    per motor. *)
Definition wf_data (d : MjData) : Prop :=
  List.length (get_body_xmat d "quadrotor"%string) = 3%nat /\
  Forall (fun row => List.length row = 3%nat)
         (get_body_xmat d "quadrotor"%string) /\
  List.length (get_body_xipos d "quadrotor"%string) = 3%nat /\
  List.length (ctrl d) = 4%nat.

(** The global [e] is the int it was initialised with or an error vector. *)
Definition wf_e (p : pyval) : Prop :=
  match p with
  | PyInt _ => True
  | NdArray v => List.length v = 4%nat
  end.

Definition wf_state (st : State) : Prop :=
  wf_data (data (sim st)) /\ wf_e (e_glob st).

(** ** The formulas of the specification *)

(** Matrix times vector and vector sum as plain total functions, to state
    the closed form of the rotor commands. *)
Definition mat_vec (M : matrix) (v : ndarray) : ndarray :=
  map (fun row => fold_right Rplus 0 (zip_with Rmult row v)) M.

Definition vec_add (v w : ndarray) : ndarray := zip_with Rplus v w.

(** The previous error as a vector: the initial int stands for the constant
    vector. *)
Definition as_vector (p : pyval) : ndarray :=
  match p with
  | PyInt z => repeat (IZR z) 4
  | NdArray v => v
  end.

(** [e_dot = (e - e_last) / h]. *)
Definition finite_difference (e : ndarray) (e_last : pyval) (h : R)
    : ndarray :=
  map (fun v => v / h) (zip_with Rminus e (as_vector e_last)).

(** The sum of column [j] of a matrix. *)
Definition col_sum (M : matrix) (j : nat) : R :=
  fold_right Rplus 0 (map (fun row => nth j row 0) M).

(** The rotation matrix of a roll-pitch-yaw triple in the aerospace (Z-Y-X)
    convention, [Rz(yaw) . Ry(pitch) . Rx(roll)]: the matrix the round-trip
    property of the specification feeds to the decomposition. *)
Definition rotation_of_rpy (roll pitch yaw : R) : matrix :=
  [ [cos yaw * cos pitch;
     cos yaw * sin pitch * sin roll - sin yaw * cos roll;
     cos yaw * sin pitch * cos roll + sin yaw * sin roll];
    [sin yaw * cos pitch;
     sin yaw * sin pitch * sin roll + cos yaw * cos roll;
     sin yaw * sin pitch * cos roll - cos yaw * sin roll];
    [- sin pitch;
     cos pitch * sin roll;
     cos pitch * cos roll] ].

(** The principal range of the three angles, away from the gimbal lock at
    pitch = +-PI/2. *)
Definition principal_range (roll pitch yaw : R) : Prop :=
  - PI < roll <= PI /\ - (PI / 2) < pitch < PI / 2 /\ - PI < yaw <= PI.

(** The identity orientation. *)
Definition identity3 : matrix := [ [1; 0; 0]; [0; 1; 0]; [0; 0; 1] ].

(** What one pass of [control] binds, stage by stage, for the previous error
    [e_prev] and the simulator data [d]. *)
Definition tick_spec (e_prev : pyval) (d : MjData) (tk : Tick) : Prop :=
  rotmat tk = get_body_xmat d "quadrotor"%string /\
  attitude (rotmat tk) = Ok (yaw tk, pitch tk, roll tk) /\
  (exists z, getitem (get_body_xipos d "quadrotor"%string) 2 = Ok z /\
             x tk = [z; roll tk; pitch tk; yaw tk]) /\
  e_last tk = e_prev /\
  sub x_d (x tk) = Ok (e tk) /\
  List.length (e tk) = 4%nat /\
  e_dot tk = finite_difference (e tk) e_prev dt /\
  (exists pd, pd_law (e tk) (e_dot tk) = Ok pd /\
              weight_compensation pd = Ok (u tk)) /\
  matmul C_R (u tk) = Ok (F tk) /\
  List.length (F tk) = 4%nat.

(** ** Sample data *)

(** The model as loaded: the body at the origin with the identity
    orientation, and no command yet. *)
Definition rest_data : MjData :=
  mkData (fun _ => identity3) (fun _ => [0; 0; 0]) [0; 0; 0; 0].

(** The body hovering at height [z] with the identity orientation. *)
Definition hover_data (z : R) : MjData :=
  mkData (fun _ => identity3) (fun _ => [0; 0; z]) [0; 0; 0; 0].

(** A world in which nothing moves. *)
Definition hold_still (d : MjData) : MjData := d.

(** A state in the middle of a run: the body hovers at height 1.0, half a
    unit above the target, as it did one tick before. *)
Definition overshoot_state : State :=
  mkState 50%Z (NdArray [-0.5; 0; 0; 0]) (mkSim (hover_data 1.0) 50)
          (mkViewer 50) [].

(** ** Auxiliary notions for the further properties *)

(** The counters and the output after [p] passes: the tick counter, the
    simulator steps, the rendered frames and the printed vectors all count
    [p]; every printed vector has four entries, and the stored error is the
    one printed last. *)
Definition in_step (p : nat) (st : State) : Prop :=
  t st = Z.of_nat p /\
  nstep (sim st) = p /\
  nrender (viewer st) = p /\
  List.length (stdout st) = p /\
  Forall (fun v => List.length v = 4%nat) (stdout st) /\
  (p <> O -> e_glob st = NdArray (last (stdout st) [])).

(** Simulator data whose orientation matrix lacks its third row. *)
Definition short_pose_data : MjData :=
  mkData (fun _ => [ [1; 0; 0]; [0; 1; 0] ]) (fun _ => [0; 0; 0])
         [0; 0; 0; 0].

(** * Properties *)

(** ** The arctangent of two arguments *)

Lemma arctan2_right (y x : R) : 0 < x -> arctan2 y x = atan (y / x).
Proof.
  intros Hx. unfold arctan2.
  destruct (Rlt_dec 0 x) as [_ | Hn]; [reflexivity | contradiction].
Qed.

Lemma arctan2_left_up (y x : R) :
  x < 0 -> 0 <= y -> arctan2 y x = atan (y / x) + PI.
Proof.
  intros Hx Hy. unfold arctan2.
  destruct (Rlt_dec 0 x) as [Hp | _]; [lra | ].
  destruct (Rlt_dec x 0) as [_ | Hn]; [ | contradiction].
  destruct (Rle_dec 0 y) as [_ | Hn]; [reflexivity | contradiction].
Qed.

Lemma arctan2_left_down (y x : R) :
  x < 0 -> y < 0 -> arctan2 y x = atan (y / x) - PI.
Proof.
  intros Hx Hy. unfold arctan2.
  destruct (Rlt_dec 0 x) as [Hp | _]; [lra | ].
  destruct (Rlt_dec x 0) as [_ | Hn]; [ | contradiction].
  destruct (Rle_dec 0 y) as [Hp | _]; [lra | reflexivity].
Qed.

Lemma arctan2_up (y : R) : 0 < y -> arctan2 y 0 = PI / 2.
Proof.
  intros Hy. unfold arctan2.
  destruct (Rlt_dec 0 0) as [Hp | _]; [lra | ].
  destruct (Rlt_dec 0 y) as [_ | Hn]; [reflexivity | contradiction].
Qed.

Lemma arctan2_down (y : R) : y < 0 -> arctan2 y 0 = - (PI / 2).
Proof.
  intros Hy. unfold arctan2.
  destruct (Rlt_dec 0 0) as [Hp | _]; [lra | ].
  destruct (Rlt_dec 0 y) as [Hp | _]; [lra | ].
  destruct (Rlt_dec y 0) as [_ | Hn]; [reflexivity | contradiction].
Qed.

Lemma arctan2_0_1 : arctan2 0 1 = 0.
Proof.
  rewrite arctan2_right by lra.
  replace (0 / 1) with 0 by lra. apply atan_0.
Qed.

Lemma tan_shift_PI (t : R) : cos t <> 0 -> tan (t + PI) = tan t.
Proof.
  intros Hc. unfold tan. rewrite neg_sin, neg_cos. field. exact Hc.
Qed.

Lemma polar_quotient (r t : R) :
  0 < r -> cos t <> 0 -> r * sin t / (r * cos t) = tan t.
Proof.
  intros Hr Hc. unfold tan. field. split; [exact Hc | lra].
Qed.

(** The angle of the point at distance [r > 0] in direction [t] is [t], for
    [t] in (-PI, PI]. *)
Lemma arctan2_polar (r t : R) :
  0 < r -> - PI < t <= PI -> arctan2 (r * sin t) (r * cos t) = t.
Proof.
  intros Hr [Hlo Hhi].
  pose proof PI_RGT_0 as Hpi.
  destruct (Rlt_dec (- (PI / 2)) t) as [Ha | Ha].
  - destruct (Rlt_dec t (PI / 2)) as [Hb | Hb].
    + (* right half plane *)
      assert (Hc : 0 < cos t) by (apply cos_gt_0; lra).
      rewrite arctan2_right by nra.
      rewrite polar_quotient by lra.
      apply atan_tan. lra.
    + destruct (Req_dec t (PI / 2)) as [He | Hne].
      * (* straight up *)
        subst t. rewrite cos_PI2, sin_PI2.
        replace (r * 0) with 0 by lra.
        apply arctan2_up. lra.
      * (* upper left quadrant *)
        assert (Hc : cos t < 0) by (apply cos_lt_0; lra).
        assert (Hs : 0 <= sin t) by (apply sin_ge_0; lra).
        rewrite arctan2_left_up by nra.
        rewrite polar_quotient by lra.
        replace (tan t) with (tan (t - PI)).
        -- rewrite atan_tan by lra. lra.
        -- replace t with (t - PI + PI) at 2 by lra.
           symmetry. apply tan_shift_PI.
           replace (t - PI) with (- (PI - t)) by lra.
           rewrite cos_neg. replace (PI - t) with (- t + PI) by lra.
           rewrite neg_cos, cos_neg. lra.
  - destruct (Req_dec t (- (PI / 2))) as [He | Hne].
    + (* straight down *)
      subst t. rewrite cos_neg, sin_neg, cos_PI2, sin_PI2.
      replace (r * 0) with 0 by lra.
      apply arctan2_down. lra.
    + (* lower left quadrant *)
      assert (Hc' : 0 < cos (t + PI)) by (apply cos_gt_0; lra).
      assert (Hc : cos t < 0) by (rewrite neg_cos in Hc'; lra).
      assert (Hs : sin t < 0) by (apply sin_lt_0_var; lra).
      rewrite arctan2_left_down by nra.
      rewrite polar_quotient by lra.
      rewrite <- tan_shift_PI by lra.
      rewrite atan_tan by lra. lra.
Qed.

(** ** Arrays of known shape *)

Lemma length4_inv (v : ndarray) :
  List.length v = 4%nat -> exists v0 v1 v2 v3, v = [v0; v1; v2; v3].
Proof.
  destruct v as [ | v0 [ | v1 [ | v2 [ | v3 [ | v4 tl]]]]]; simpl;
    intros Hlen; try discriminate.
  exists v0, v1, v2, v3. reflexivity.
Qed.

Lemma length3_inv (v : ndarray) :
  List.length v = 3%nat -> exists v0 v1 v2, v = [v0; v1; v2].
Proof.
  destruct v as [ | v0 [ | v1 [ | v2 [ | v3 tl]]]]; simpl;
    intros Hlen; try discriminate.
  exists v0, v1, v2. reflexivity.
Qed.

Lemma shape33_inv (m : matrix) :
  List.length m = 3%nat -> Forall (fun row => List.length row = 3%nat) m ->
  exists r00 r01 r02 r10 r11 r12 r20 r21 r22,
    m = [ [r00; r01; r02]; [r10; r11; r12]; [r20; r21; r22] ].
Proof.
  destruct m as [ | ra [ | rb [ | rc [ | rd tl]]]]; simpl;
    intros Hlen Hrows; try discriminate.
  inversion Hrows as [ | ? ? Ha Hrows1]; subst.
  inversion Hrows1 as [ | ? ? Hb Hrows2]; subst.
  inversion Hrows2 as [ | ? ? Hc _]; subst.
  destruct (length3_inv _ Ha) as (r00 & r01 & r02 & ->).
  destruct (length3_inv _ Hb) as (r10 & r11 & r12 & ->).
  destruct (length3_inv _ Hc) as (r20 & r21 & r22 & ->).
  exists r00, r01, r02, r10, r11, r12, r20, r21, r22. reflexivity.
Qed.

(** Unfolds the array operations on arrays given by their elements. *)
Ltac np_eval :=
  cbv beta iota zeta delta
    [bind getitem getitem2 setitem nth_error nth zip_with broadcast add sub
     iadd sub_py div_scalar dot matmul map List.length Nat.eqb repeat fold_right
     fst snd].

(** Closes an equation between arrays of real expressions. *)
Ltac vec_eq := repeat (f_equal; try lra; try ring).

(** ** The stages of the loop body, on arrays given by their elements *)

Lemma attitude_entries (r00 r01 r02 r10 r11 r12 r20 r21 r22 : R) :
  attitude [ [r00; r01; r02]; [r10; r11; r12]; [r20; r21; r22] ] =
  Ok (arctan2 r10 r00,
      arctan2 (- r20) (sqrt (r21 ^ 2 + r22 ^ 2)),
      arctan2 r21 r22).
Proof. reflexivity. Qed.

Lemma pd_law_entries (e0 e1 e2 e3 d0 d1 d2 d3 : R) :
  pd_law [e0; e1; e2; e3] [d0; d1; d2; d3] =
  Ok [ kpz * e0 + kdz * d0; kpphi * e1 + kdphi * d1;
       kptheta * e2 + kdtheta * d2; kppsi * e3 + kdpsi * d3 ].
Proof. unfold pd_law, K_p, K_d. np_eval. vec_eq. Qed.

Lemma weight_compensation_entries (u0 u1 u2 u3 : R) :
  weight_compensation [u0; u1; u2; u3] =
  Ok [ 2 * u0 + mass * gravity; u1; u2; u3 ].
Proof. unfold weight_compensation. np_eval. vec_eq. Qed.

Lemma mix_entries (u0 u1 u2 u3 : R) :
  matmul C_R [u0; u1; u2; u3] =
  Ok [ a * u0 + b * u1 - b * u2 - c * u3;
       a * u0 - b * u1 - b * u2 + c * u3;
       a * u0 - b * u1 + b * u2 - c * u3;
       a * u0 + b * u1 + b * u2 + c * u3 ].
Proof. unfold C_R. np_eval. vec_eq. Qed.

Lemma error_entries (z r p y : R) :
  sub x_d [z; r; p; y] = Ok [0.5 - z; - r; - p; - y].
Proof. unfold x_d. np_eval. vec_eq. Qed.

Lemma sub_py_int_entries (e0 e1 e2 e3 : R) (z : Z) :
  sub_py [e0; e1; e2; e3] (PyInt z) =
  Ok [e0 - IZR z; e1 - IZR z; e2 - IZR z; e3 - IZR z].
Proof. reflexivity. Qed.

Lemma sub_py_array_entries (e0 e1 e2 e3 l0 l1 l2 l3 : R) :
  sub_py [e0; e1; e2; e3] (NdArray [l0; l1; l2; l3]) =
  Ok [e0 - l0; e1 - l1; e2 - l2; e3 - l3].
Proof. reflexivity. Qed.

Lemma write_ctrl_entries (f0 f1 f2 f3 c0 c1 c2 c3 : R) xm xp :
  write_ctrl [f0; f1; f2; f3] (mkData xm xp [c0; c1; c2; c3]) =
  Ok (mkData xm xp [f0; f1; f2; f3]).
Proof. reflexivity. Qed.

(** ** One pass of the controller *)

(** On well-shaped data the controller raises nothing, and binds what
    [tick_spec] says. *)
Lemma control_total (e_prev : pyval) (d : MjData) :
  wf_data d -> wf_e e_prev ->
  exists tk, control e_prev d = Ok tk /\ tick_spec e_prev d tk.
Proof.
  intros (Hm & Hrows & Hp & _) He.
  destruct (shape33_inv _ Hm Hrows)
    as (r00 & r01 & r02 & r10 & r11 & r12 & r20 & r21 & r22 & Hxm).
  destruct (length3_inv _ Hp) as (p0 & p1 & p2 & Hxp).
  unfold control, tick_spec. rewrite Hxm, Hxp, attitude_entries.
  cbv beta iota zeta delta [bind getitem nth_error].
  rewrite error_entries. cbv beta iota zeta delta [bind].
  destruct e_prev as [z | v].
  - rewrite sub_py_int_entries. cbv beta iota zeta delta [bind div_scalar map].
    rewrite pd_law_entries. cbv beta iota zeta delta [bind].
    rewrite weight_compensation_entries. cbv beta iota zeta delta [bind].
    rewrite mix_entries. cbv beta iota zeta delta [bind].
    eexists. split; [reflexivity | ].
    cbv beta iota zeta delta
      [rotmat yaw pitch roll x e_last e e_dot u F].
    rewrite attitude_entries, error_entries, pd_law_entries, mix_entries.
    repeat split; try reflexivity.
    + exists p2. split; reflexivity.
    + eexists. split; [reflexivity | apply weight_compensation_entries].
  - destruct (length4_inv _ He) as (l0 & l1 & l2 & l3 & ->).
    rewrite sub_py_array_entries.
    cbv beta iota zeta delta [bind div_scalar map].
    rewrite pd_law_entries. cbv beta iota zeta delta [bind].
    rewrite weight_compensation_entries. cbv beta iota zeta delta [bind].
    rewrite mix_entries. cbv beta iota zeta delta [bind].
    eexists. split; [reflexivity | ].
    cbv beta iota zeta delta
      [rotmat yaw pitch roll x e_last e e_dot u F].
    rewrite attitude_entries, error_entries, pd_law_entries, mix_entries.
    repeat split; try reflexivity.
    + exists p2. split; reflexivity.
    + eexists. split; [reflexivity | apply weight_compensation_entries].
Qed.

Lemma write_ctrl_total (f : ndarray) (d : MjData) :
  List.length f = 4%nat -> List.length (ctrl d) = 4%nat ->
  write_ctrl f d = Ok (mkData (get_body_xmat d) (get_body_xipos d) f).
Proof.
  intros Hf Hc. destruct d as [xm xp cs]. simpl in Hc.
  destruct (length4_inv _ Hf) as (f0 & f1 & f2 & f3 & ->).
  destruct (length4_inv _ Hc) as (c0 & c1 & c2 & c3 & ->).
  apply write_ctrl_entries.
Qed.

(** Up to the last actuator write, a pass raises nothing on a well-shaped
    state; it leaves the pose alone, puts [F] into the command slots, and
    keeps the error for the next pass. *)
Lemma actuate_total (st : State) :
  wf_state st ->
  exists tk st',
    actuate st = Ok (tk, st') /\
    tick_spec (e_glob st) (data (sim st)) tk /\
    ctrl (data (sim st')) = F tk /\
    get_body_xmat (data (sim st')) = get_body_xmat (data (sim st)) /\
    get_body_xipos (data (sim st')) = get_body_xipos (data (sim st)) /\
    e_glob st' = NdArray (e tk) /\
    t st' = t st /\
    nstep (sim st') = nstep (sim st) /\
    viewer st' = viewer st /\
    stdout st' = (stdout st ++ [e tk])%list /\
    control (e_glob st) (data (sim st)) = Ok tk.
Proof.
  intros [Hd He].
  destruct (control_total _ _ Hd He) as (tk & Hctl & Hspec).
  assert (HF : List.length (F tk) = 4%nat) by apply Hspec.
  assert (Hc : List.length (ctrl (data (sim st))) = 4%nat) by apply Hd.
  unfold actuate. rewrite Hctl. cbv beta iota delta [bind].
  rewrite (write_ctrl_total _ _ HF Hc). cbv beta iota delta [bind].
  eexists. eexists. split; [reflexivity | ].
  split; [exact Hspec | ]. simpl. repeat split.
Qed.

Lemma actuate_wf (st st' : State) (tk : Tick) :
  wf_state st -> actuate st = Ok (tk, st') -> wf_state st'.
Proof.
  intros Hwf Hact.
  destruct (actuate_total st Hwf)
    as (tk1 & st1 & Hact1 & Hspec & Hctrl & Hxm & Hxp & He & _).
  rewrite Hact in Hact1. injection Hact1 as <- <-.
  destruct Hwf as [(Hm & Hrows & Hp & Hc) _].
  split.
  - unfold wf_data. rewrite Hxm, Hxp, Hctrl.
    repeat split; try assumption. apply Hspec.
  - rewrite He. simpl. apply Hspec.
Qed.

(** ** The loop *)

Section Loop.

(** The physics: any step function that keeps the shapes of the arrays. *)
Variable mj_step : MjData -> MjData.
Hypothesis mj_step_wf : forall d, wf_data d -> wf_data (mj_step d).

(** A whole pass on a well-shaped state: nothing is raised, the counter
    and the simulator advance by one, and the pass ends in [break] exactly
    when the counter has passed 100 and the flag is set. *)
Lemma body_total (env : option string) (st : State) :
  wf_state st ->
  exists tk st',
    body mj_step env st =
      Ok (tk, st', (100 <? t st + 1)%Z && testing env) /\
    tick_spec (e_glob st) (data (sim st)) tk /\
    wf_state st' /\
    e_glob st' = NdArray (e tk) /\
    t st' = (t st + 1)%Z /\
    nstep (sim st') = S (nstep (sim st)) /\
    nrender (viewer st') = S (nrender (viewer st)) /\
    stdout st' = (stdout st ++ [e tk])%list.
Proof.
  intros Hwf.
  destruct (actuate_total st Hwf)
    as (tk & st1 & Hact & Hspec & Hctrl & Hxm & Hxp & He & Ht & Hn & Hv & Ho
        & _).
  pose proof (actuate_wf _ _ _ Hwf Hact) as [Hd1 He1].
  unfold body. rewrite Hact. cbv beta iota delta [bind].
  rewrite Ht, Hn, Hv.
  eexists. eexists. split; [reflexivity | ].
  split; [exact Hspec | ]. simpl.
  split; [split; [apply mj_step_wf; exact Hd1 | exact He1] | ].
  repeat split; assumption.
Qed.

(** While the flag is unset, or the counter stays within 100, the loop
    keeps going: after [fuel] passes it is still looping. *)
Lemma loop_continues (env : option string) (fuel : nat) :
  forall (n : nat) (st : State),
    wf_state st ->
    testing env = false \/ (t st + Z.of_nat fuel <= 100)%Z ->
    exists st',
      loop mj_step env fuel n st = Looping (n + fuel) st' /\
      wf_state st' /\
      t st' = (t st + Z.of_nat fuel)%Z /\
      nstep (sim st') = (nstep (sim st) + fuel)%nat.
Proof.
  induction fuel as [ | k IH]; intros n st Hwf Hgo.
  - exists st. simpl. rewrite Nat.add_0_r, Z.add_0_r.
    repeat split; try apply Hwf; auto.
  - destruct (body_total env st Hwf)
      as (tk & st1 & Hbody & _ & Hwf1 & _ & Ht & Hn & _).
    assert (Hbrk : (100 <? t st + 1)%Z && testing env = false).
    { destruct Hgo as [Hflag | Hle].
      - rewrite Hflag. apply andb_false_r.
      - apply andb_false_intro1. apply Z.ltb_ge. lia. }
    simpl. rewrite Hbody, Hbrk.
    destruct (IH (S n) st1 Hwf1) as (st' & Hloop & Hwf' & Ht' & Hn').
    { destruct Hgo as [Hflag | Hle]; [left; exact Hflag | right; lia]. }
    exists st'. rewrite Hloop.
    repeat split; try apply Hwf'; try (f_equal; lia); lia.
Qed.

(** With the flag set, a loop whose counter is [k] passes short of 100
    leaves by [break] at pass [k + 1], in one and the same state however
    much longer it is watched. *)
Lemma loop_exits (env : option string) (k : nat) :
  forall (n : nat) (st : State),
    wf_state st ->
    testing env = true ->
    (t st + Z.of_nat k = 100)%Z ->
    exists st',
      t st' = 101%Z /\
      nstep (sim st') = (nstep (sim st) + k + 1)%nat /\
      forall fuel, (k < fuel)%nat ->
                   loop mj_step env fuel n st = Exited (n + k + 1) st'.
Proof.
  induction k as [ | k IH]; intros n st Hwf Hflag Ht.
  - destruct (body_total env st Hwf)
      as (tk & st1 & Hbody & _ & Hwf1 & _ & Ht1 & Hn1 & _).
    assert (Hbrk : (100 <? t st + 1)%Z && testing env = true).
    { rewrite Hflag, andb_true_r. apply Z.ltb_lt. lia. }
    exists st1. split; [lia | ]. split; [lia | ].
    intros [ | fuel] Hfuel; [lia | ].
    simpl. rewrite Hbody, Hbrk. f_equal. lia.
  - destruct (body_total env st Hwf)
      as (tk & st1 & Hbody & _ & Hwf1 & _ & Ht1 & Hn1 & _).
    assert (Hbrk : (100 <? t st + 1)%Z && testing env = false).
    { apply andb_false_intro1. apply Z.ltb_ge. lia. }
    destruct (IH (S n) st1 Hwf1 Hflag) as (st' & Ht' & Hn' & Hloop);
      [lia | ].
    exists st'. split; [exact Ht' | ]. split; [lia | ].
    intros [ | fuel] Hfuel; [lia | ].
    simpl. rewrite Hbody, Hbrk, Hloop by lia. f_equal. lia.
Qed.

Lemma init_wf (d0 : MjData) : wf_data d0 -> wf_state (init d0).
Proof. intros Hd. split; [exact Hd | exact I]. Qed.

End Loop.

(** ** The controller on a pose given by its entries *)

Lemma control_entries (e_prev : pyval) (d : MjData)
    (r00 r01 r02 r10 r11 r12 r20 r21 r22 p0 p1 p2 : R) :
  get_body_xmat d "quadrotor"%string =
    [ [r00; r01; r02]; [r10; r11; r12]; [r20; r21; r22] ] ->
  get_body_xipos d "quadrotor"%string = [p0; p1; p2] ->
  wf_e e_prev ->
  exists tk,
    control e_prev d = Ok tk /\
    yaw tk = arctan2 r10 r00 /\
    pitch tk = arctan2 (- r20) (sqrt (r21 ^ 2 + r22 ^ 2)) /\
    roll tk = arctan2 r21 r22 /\
    x tk = [p2; roll tk; pitch tk; yaw tk] /\
    e tk = [0.5 - p2; - roll tk; - pitch tk; - yaw tk] /\
    e_last tk = e_prev /\
    e_dot tk = finite_difference (e tk) e_prev dt /\
    (forall e0 e1 e2 e3 d0 d1 d2 d3,
        e tk = [e0; e1; e2; e3] -> e_dot tk = [d0; d1; d2; d3] ->
        u tk = [ 2 * (kpz * e0 + kdz * d0) + mass * gravity;
                 kpphi * e1 + kdphi * d1;
                 kptheta * e2 + kdtheta * d2;
                 kppsi * e3 + kdpsi * d3 ]) /\
    (forall u0 u1 u2 u3,
        u tk = [u0; u1; u2; u3] ->
        F tk = [ a * u0 + b * u1 - b * u2 - c * u3;
                 a * u0 - b * u1 - b * u2 + c * u3;
                 a * u0 - b * u1 + b * u2 - c * u3;
                 a * u0 + b * u1 + b * u2 + c * u3 ]).
Proof.
  intros Hxm Hxp He.
  set (d' := mkData (get_body_xmat d) (get_body_xipos d) [0; 0; 0; 0]).
  assert (Hd' : wf_data d').
  { unfold wf_data, d'. simpl. rewrite Hxm, Hxp.
    repeat split; repeat constructor. }
  destruct (control_total e_prev d' Hd' He) as (tk & Hctl & Hspec).
  change (control e_prev d') with (control e_prev d) in Hctl.
  destruct Hspec
    as (Hrot & Hatt & (z & Hz & Hx) & Hlast & Hsub & Hlen & Hdot
        & (pd & Hpd & Hwc) & Hmix & _).
  simpl in Hrot, Hz. rewrite Hxm in Hrot. rewrite Hxp in Hz.
  rewrite Hrot, attitude_entries in Hatt.
  injection Hatt as Hyaw Hpitch Hroll.
  injection Hz as <-.
  rewrite Hx, error_entries in Hsub. injection Hsub as Herr.
  exists tk. split; [exact Hctl | ].
  repeat split; auto.
  - intros e0 e1 e2 e3 d0 d1 d2 d3 Hev Hdv.
    rewrite Hev, Hdv, pd_law_entries in Hpd. injection Hpd as <-.
    rewrite weight_compensation_entries in Hwc. injection Hwc as <-.
    reflexivity.
  - intros u0 u1 u2 u3 Huv.
    rewrite Huv, mix_entries in Hmix. injection Hmix as <-.
    reflexivity.
Qed.

(** ** The rotor commands as a function of the errors *)

(** One pass in closed form: what [tick_spec] says, entry by entry. *)
Lemma tick_closed_form (e_prev : pyval) (d : MjData) (tk : Tick) :
  wf_e e_prev -> tick_spec e_prev d tk ->
  exists z e0 e1 e2 e3 l0 l1 l2 l3 u0 u1 u2 u3,
    attitude (get_body_xmat d "quadrotor"%string)
      = Ok (yaw tk, pitch tk, roll tk) /\
    getitem (get_body_xipos d "quadrotor"%string) 2 = Ok z /\
    x tk = [z; roll tk; pitch tk; yaw tk] /\
    sub x_d (x tk) = Ok (e tk) /\
    e_last tk = e_prev /\
    e tk = [e0; e1; e2; e3] /\
    as_vector (e_last tk) = [l0; l1; l2; l3] /\
    e_dot tk = [(e0 - l0) / dt; (e1 - l1) / dt;
                (e2 - l2) / dt; (e3 - l3) / dt] /\
    u tk = [u0; u1; u2; u3] /\
    u0 = 2 * (kpz * e0 + kdz * ((e0 - l0) / dt)) + mass * gravity /\
    u1 = kpphi * e1 + kdphi * ((e1 - l1) / dt) /\
    u2 = kptheta * e2 + kdtheta * ((e2 - l2) / dt) /\
    u3 = kppsi * e3 + kdpsi * ((e3 - l3) / dt) /\
    F tk = [ a * u0 + b * u1 - b * u2 - c * u3;
        a * u0 - b * u1 - b * u2 + c * u3;
        a * u0 - b * u1 + b * u2 - c * u3;
        a * u0 + b * u1 + b * u2 + c * u3 ].
Proof.
  intros He (Hrot & Hatt & (z & Hz & Hx) & Hlast & Hsub & Hlen & Hdot
             & (pd & Hpd & Hwc) & Hmix & _).
  destruct (length4_inv _ Hlen) as (e0 & e1 & e2 & e3 & Herr).
  assert (Hl : exists l0 l1 l2 l3, as_vector e_prev = [l0; l1; l2; l3]).
  { destruct e_prev as [k | v]; simpl.
    - exists (IZR k), (IZR k), (IZR k), (IZR k). reflexivity.
    - apply length4_inv. exact He. }
  destruct Hl as (l0 & l1 & l2 & l3 & Hl).
  rewrite Herr in Hdot. unfold finite_difference in Hdot. rewrite Hl in Hdot.
  cbv beta iota zeta delta [zip_with map] in Hdot.
  rewrite Herr, Hdot, pd_law_entries in Hpd. injection Hpd as <-.
  rewrite weight_compensation_entries in Hwc. injection Hwc as Hu.
  symmetry in Hu. rewrite Hu, mix_entries in Hmix. injection Hmix as HF.
  symmetry in HF.
  exists z, e0, e1, e2, e3, l0, l1, l2, l3.
  do 4 eexists.
  rewrite <- Hrot, Hlast.
  split; [exact Hatt | ]. split; [exact Hz | ]. split; [exact Hx | ].
  split; [exact Hsub | ]. split; [reflexivity | ]. split; [exact Herr | ].
  split; [exact Hl | ]. split; [exact Hdot | ]. split; [exact Hu | ].
  split; [reflexivity | ]. split; [reflexivity | ].
  split; [reflexivity | ]. split; [reflexivity | ]. exact HF.
Qed.

(** C1.  At every tick the four commands written to the simulator are
    [F = C_R . (K_p.e + K_d.e_dot + gravity compensation on channel 0)] with
    [e_dot = (e - e_last) / dt]: on a well-shaped state the pass raises
    nothing; the error is [x_d - x] for the state vector read from the pose;
    and the command slots then hold [C_R.u], where [u] is given entry by
    entry from the current error, the previous error and [dt] alone.  The
    gravity-compensation offset is the one the data model of the
    specification names: the PD term of channel 0 plus [mass * gravity], on
    channel 0 only. *)
Theorem written_commands_follow_formula (st : State) :
  wf_state st ->
  exists tk st' z e0 e1 e2 e3 l0 l1 l2 l3 u0 u1 u2 u3,
    actuate st = Ok (tk, st') /\
    attitude (get_body_xmat (data (sim st)) "quadrotor"%string)
      = Ok (yaw tk, pitch tk, roll tk) /\
    getitem (get_body_xipos (data (sim st)) "quadrotor"%string) 2 = Ok z /\
    x tk = [z; roll tk; pitch tk; yaw tk] /\
    sub x_d (x tk) = Ok (e tk) /\
    e_last tk = e_glob st /\
    e tk = [e0; e1; e2; e3] /\
    as_vector (e_last tk) = [l0; l1; l2; l3] /\
    e_dot tk = [(e0 - l0) / dt; (e1 - l1) / dt;
                (e2 - l2) / dt; (e3 - l3) / dt] /\
    u tk = [u0; u1; u2; u3] /\
    u0 = 2 * (kpz * e0 + kdz * ((e0 - l0) / dt)) + mass * gravity /\
    u1 = kpphi * e1 + kdphi * ((e1 - l1) / dt) /\
    u2 = kptheta * e2 + kdtheta * ((e2 - l2) / dt) /\
    u3 = kppsi * e3 + kdpsi * ((e3 - l3) / dt) /\
    e_dot tk = finite_difference (e tk) (e_last tk) dt /\
    F tk = [ a * u0 + b * u1 - b * u2 - c * u3;
        a * u0 - b * u1 - b * u2 + c * u3;
        a * u0 - b * u1 + b * u2 - c * u3;
        a * u0 + b * u1 + b * u2 + c * u3 ] /\
    ctrl (data (sim st')) = F tk /\
    ctrl (data (sim st')) =
      mat_vec C_R
        (vec_add (vec_add (mat_vec K_p (e tk)) (mat_vec K_d (e_dot tk)))
                 [kpz * e0 + kdz * ((e0 - l0) / dt) + mass * gravity;
                  0; 0; 0]).
Proof.
  intros Hwf.
  destruct (actuate_total st Hwf) as (tk & st' & Hact & Hspec & Hctrl & _).
  destruct (tick_closed_form _ _ tk (proj2 Hwf) Hspec)
    as (z & e0 & e1 & e2 & e3 & l0 & l1 & l2 & l3 & u0 & u1 & u2 & u3
        & Hatt & Hz & Hx & Hsub & Hlast & Herr & Hl & Hdot & Hu
        & Hu0 & Hu1 & Hu2 & Hu3 & HF).
  assert (Hfd : e_dot tk = finite_difference (e tk) (e_glob st) dt)
    by apply Hspec.
  exists tk, st', z, e0, e1, e2, e3, l0, l1, l2, l3, u0, u1, u2, u3.
  split; [exact Hact | ]. split; [exact Hatt | ]. split; [exact Hz | ].
  split; [exact Hx | ]. split; [exact Hsub | ]. split; [exact Hlast | ].
  split; [exact Herr | ]. split; [exact Hl | ]. split; [exact Hdot | ].
  split; [exact Hu | ]. split; [exact Hu0 | ]. split; [exact Hu1 | ].
  split; [exact Hu2 | ]. split; [exact Hu3 | ].
  split; [rewrite Hlast; exact Hfd | ].
  split; [exact HF | ]. split; [exact Hctrl | ].
  rewrite Hctrl, HF, Herr, Hdot. subst u0 u1 u2 u3.
  unfold vec_add, mat_vec, K_p, K_d, C_R. np_eval. vec_eq.
Qed.

(** ** The weight compensation of the altitude channel *)

(** C2.  For all error and derivative vectors of four entries, the
    controller first forms [u = K_p.e + K_d.e_dot] and then updates only the
    altitude channel, [u[0] = u[0] + (u[0] + mass * gravity)]: channel 0
    becomes twice the PD term plus [mass * gravity], channels 1 to 3 keep
    their value. *)
Theorem altitude_channel_doubled (ev dv : ndarray) :
  List.length ev = 4%nat -> List.length dv = 4%nat ->
  exists pd uv,
    pd_law ev dv = Ok pd /\
    pd = vec_add (mat_vec K_p ev) (mat_vec K_d dv) /\
    weight_compensation pd = Ok uv /\
    List.length uv = 4%nat /\
    nth 0 uv 0 = nth 0 pd 0 + (nth 0 pd 0 + mass * gravity) /\
    nth 0 uv 0 = 2 * nth 0 pd 0 + mass * gravity /\
    (forall i, (1 <= i <= 3)%nat -> nth i uv 0 = nth i pd 0).
Proof.
  intros He Hd.
  destruct (length4_inv _ He) as (e0 & e1 & e2 & e3 & ->).
  destruct (length4_inv _ Hd) as (d0 & d1 & d2 & d3 & ->).
  eexists. eexists.
  split; [apply pd_law_entries | ].
  split; [unfold vec_add, mat_vec, K_p, K_d; np_eval; vec_eq | ].
  split; [apply weight_compensation_entries | ].
  split; [reflexivity | ].
  split; [simpl; lra | ].
  split; [reflexivity | ].
  intros i Hi.
  destruct i as [ | [ | [ | [ | i]]]]; try lia; reflexivity.
Qed.

(** ** The state vector *)

(** C3.  For every 3x3 orientation matrix and position read from the
    simulator, the controller computes [yaw = atan2(R[1][0], R[0][0])],
    [pitch = atan2(-R[2][0], sqrt(R[2][1]^2 + R[2][2]^2))] and
    [roll = atan2(R[2][1], R[2][2])], and forms [x = [z, roll, pitch, yaw]]
    with [z] the third coordinate of the position. *)
Theorem state_vector_from_pose (e_prev : pyval) (d : MjData)
    (r00 r01 r02 r10 r11 r12 r20 r21 r22 p0 p1 p2 : R) :
  get_body_xmat d "quadrotor"%string =
    [ [r00; r01; r02]; [r10; r11; r12]; [r20; r21; r22] ] ->
  get_body_xipos d "quadrotor"%string = [p0; p1; p2] ->
  wf_e e_prev ->
  exists tk,
    control e_prev d = Ok tk /\
    rotmat tk = [ [r00; r01; r02]; [r10; r11; r12]; [r20; r21; r22] ] /\
    yaw tk = arctan2 r10 r00 /\
    pitch tk = arctan2 (- r20) (sqrt (r21 ^ 2 + r22 ^ 2)) /\
    roll tk = arctan2 r21 r22 /\
    x tk = [p2; roll tk; pitch tk; yaw tk].
Proof.
  intros Hxm Hxp He.
  destruct (control_entries e_prev d _ _ _ _ _ _ _ _ _ _ _ _ Hxm Hxp He)
    as (tk & Hctl & Hyaw & Hpitch & Hroll & Hx & _).
  exists tk. repeat split; try assumption.
  unfold control in Hctl. rewrite Hxm in Hctl.
  destruct (attitude _) as [[[y p] r] | ] in Hctl; [ | discriminate].
  cbv beta iota delta [bind] in Hctl.
  repeat match type of Hctl with
         | (match ?m with Ok _ => _ | Raise _ => _ end) = _ =>
             destruct m; [ | discriminate]
         end.
  injection Hctl as <-. reflexivity.
Qed.

(** ** The mixing matrix *)

(** C9.  For every control output [u] of four entries, the rotor commands
    [F = C_R.u] add up to [u[0]]: the first column of [C_R] sums to
    [4 * a = 1] and each of the other three columns sums to zero. *)
Theorem total_thrust_is_altitude_command (uv : ndarray) :
  List.length uv = 4%nat ->
  exists fv,
    matmul C_R uv = Ok fv /\
    List.length fv = 4%nat /\
    nth 0 fv 0 + nth 1 fv 0 + nth 2 fv 0 + nth 3 fv 0 = nth 0 uv 0 /\
    col_sum C_R 0 = 4 * a /\ 4 * a = 1 /\
    col_sum C_R 1 = 0 /\ col_sum C_R 2 = 0 /\ col_sum C_R 3 = 0.
Proof.
  intros Hu.
  destruct (length4_inv _ Hu) as (u0 & u1 & u2 & u3 & ->).
  eexists. split; [apply mix_entries | ].
  split; [reflexivity | ].
  unfold col_sum, C_R. np_eval. unfold a.
  repeat split; lra.
Qed.

(** ** Hovering with the identity orientation *)

Lemma sqrt_0_1 : sqrt (0 ^ 2 + 1 ^ 2) = 1.
Proof. replace (0 ^ 2 + 1 ^ 2) with 1 by ring. apply sqrt_1. Qed.

(** With the identity orientation the three angles vanish, and only the
    altitude error is left. *)
Lemma hover_tick (e_prev : pyval) (d : MjData) (p0 p1 z : R) :
  get_body_xmat d "quadrotor"%string = identity3 ->
  get_body_xipos d "quadrotor"%string = [p0; p1; z] ->
  wf_e e_prev ->
  exists tk,
    control e_prev d = Ok tk /\
    e tk = [0.5 - z; 0; 0; 0] /\
    e_dot tk = finite_difference [0.5 - z; 0; 0; 0] e_prev dt /\
    (forall d0 d1 d2 d3,
        e_dot tk = [d0; d1; d2; d3] ->
        u tk = [ 2 * (kpz * (0.5 - z) + kdz * d0) + mass * gravity;
                 kdphi * d1; kdtheta * d2; kdpsi * d3 ]) /\
    (forall u0 u1 u2 u3,
        u tk = [u0; u1; u2; u3] ->
        F tk = [ a * u0 + b * u1 - b * u2 - c * u3;
                 a * u0 - b * u1 - b * u2 + c * u3;
                 a * u0 - b * u1 + b * u2 - c * u3;
                 a * u0 + b * u1 + b * u2 + c * u3 ]).
Proof.
  intros Hxm Hxp He. unfold identity3 in Hxm.
  destruct (control_entries e_prev d _ _ _ _ _ _ _ _ _ _ _ _ Hxm Hxp He)
    as (tk & Hctl & Hyaw & Hpitch & Hroll & _ & Herr & _ & Hdot & Hu & HF).
  rewrite arctan2_0_1 in Hyaw, Hroll.
  rewrite sqrt_0_1, Ropp_0, arctan2_0_1 in Hpitch.
  rewrite Hyaw, Hpitch, Hroll, Ropp_0 in Herr.
  exists tk. split; [exact Hctl | ].
  split; [exact Herr | ].
  split; [rewrite <- Herr; exact Hdot | ].
  split; [ | exact HF].
  intros d0 d1 d2 d3 Hdv.
  rewrite (Hu _ _ _ _ _ _ _ _ Herr Hdv). vec_eq.
Qed.

(** C6.  With the identity orientation and the centre of mass at the target
    altitude [x_d[0] = 0.5], the error is the zero vector; if the previous
    error is zero as well (the initial int or a zero vector), the control
    output before mixing is the pure gravity compensation
    [u = [mass * gravity, 0, 0, 0]]. *)
Theorem hover_at_target_is_gravity_compensation
    (e_prev : pyval) (d : MjData) (p0 p1 : R) :
  get_body_xmat d "quadrotor"%string = identity3 ->
  get_body_xipos d "quadrotor"%string = [p0; p1; nth 0 x_d 0] ->
  wf_e e_prev ->
  nth 0 x_d 0 = 0.5 /\
  exists tk,
    control e_prev d = Ok tk /\
    e tk = [0; 0; 0; 0] /\
    (e_prev = PyInt 0 \/ e_prev = NdArray [0; 0; 0; 0] ->
     e_dot tk = [0; 0; 0; 0] /\ u tk = [mass * gravity; 0; 0; 0]).
Proof.
  intros Hxm Hxp He. split; [reflexivity | ].
  destruct (hover_tick e_prev d p0 p1 _ Hxm Hxp He)
    as (tk & Hctl & Herr & Hdot & Hu & _).
  assert (Herr0 : e tk = [0; 0; 0; 0]).
  { rewrite Herr. unfold x_d. simpl. vec_eq. }
  exists tk. split; [exact Hctl | ]. split; [exact Herr0 | ].
  intros Hprev.
  assert (Hdot0 : e_dot tk = [0; 0; 0; 0]).
  { rewrite Hdot. unfold x_d, dt.
    destruct Hprev as [-> | ->];
      cbv beta iota zeta delta
        [finite_difference as_vector repeat zip_with map nth];
      vec_eq. }
  split; [exact Hdot0 | ].
  rewrite (Hu _ _ _ _ Hdot0). unfold x_d. simpl. vec_eq.
Qed.

(** ** The sign of the written commands *)

(** C5, as stated, fails: hovering half a unit above the target the
    controller writes four negative commands. *)
Lemma overshoot_commands_negative :
  wf_state overshoot_state /\
  exists tk st',
    actuate overshoot_state = Ok (tk, st') /\
    ctrl (data (sim st')) = [-0.26425; -0.26425; -0.26425; -0.26425] /\
    ~ Forall (fun f => 0 <= f) (ctrl (data (sim st'))).
Proof.
  assert (Hwf : wf_state overshoot_state).
  { split; [ | reflexivity].
    unfold wf_data. simpl. repeat split; repeat constructor. }
  split; [exact Hwf | ].
  destruct (actuate_total _ Hwf)
    as (tk & st' & Hact & _ & Hctrl & _ & _ & _ & _ & _ & _ & _ & Hctl).
  destruct (hover_tick (e_glob overshoot_state)
              (data (sim overshoot_state)) 0 0 1.0)
    as (tk' & Hctl' & Herr & Hdot & Hu & HF);
    [reflexivity | reflexivity | reflexivity | ].
  rewrite Hctl in Hctl'. injection Hctl' as <-.
  cbv beta iota zeta delta
    [finite_difference as_vector repeat zip_with map overshoot_state e_glob]
    in Hdot.
  specialize (Hu _ _ _ _ Hdot). specialize (HF _ _ _ _ Hu).
  assert (Hval : ctrl (data (sim st'))
                 = [-0.26425; -0.26425; -0.26425; -0.26425]).
  { rewrite Hctrl, HF.
    unfold a, b, c, L, C, kpz, kdz, kdphi, kdtheta, kdpsi, mass, gravity, dt.
    vec_eq. }
  exists tk, st'. split; [exact Hact | ]. split; [exact Hval | ].
  rewrite Hval. intros Hall. inversion Hall as [ | ? ? Hneg _]. lra.
Qed.

Lemma mix_signs (u0 u1 u2 u3 f0 f1 f2 f3 : R) :
  [f0; f1; f2; f3] = [ a * u0 + b * u1 - b * u2 - c * u3;
        a * u0 - b * u1 - b * u2 + c * u3;
        a * u0 - b * u1 + b * u2 - c * u3;
        a * u0 + b * u1 + b * u2 + c * u3 ] ->
  f0 + f1 + f2 + f3 = u0 /\
  (10 * (Rabs u1 + Rabs u2 + Rabs u3) <= u0 ->
   0 <= f0 /\ 0 <= f1 /\ 0 <= f2 /\ 0 <= f3) /\
  (u0 < 0 -> f0 < 0 \/ f1 < 0 \/ f2 < 0 \/ f3 < 0).
Proof.
  intros Heq. injection Heq as -> -> -> ->.
  unfold a, b, c, L, C.
  split; [lra | ]. split.
  - intros Hdom. unfold Rabs in Hdom.
    destruct (Rcase_abs u1), (Rcase_abs u2), (Rcase_abs u3);
      repeat split; lra.
  - intros Hneg.
    destruct (Rlt_dec (0.25 * u0 + 1 / (4 * 0.1) * u1 - 1 / (4 * 0.1) * u2
                       - 1 / (4 * 0.1) * u3) 0) as [H0 | H0];
      [left; exact H0 | right].
    destruct (Rlt_dec (0.25 * u0 - 1 / (4 * 0.1) * u1 - 1 / (4 * 0.1) * u2
                       + 1 / (4 * 0.1) * u3) 0) as [H1 | H1];
      [left; exact H1 | right].
    destruct (Rlt_dec (0.25 * u0 - 1 / (4 * 0.1) * u1 + 1 / (4 * 0.1) * u2
                       - 1 / (4 * 0.1) * u3) 0) as [H2 | H2];
      [left; exact H2 | right].
    lra.
Qed.

(** C5, amended.  At every tick the four commands written to the simulator
    are the entries of [F = C_R.u] as computed; the script does not clamp
    them.  They add up to [u[0]].  Each of them is non-negative whenever the
    altitude channel dominates the torque channels,
    [u[0] >= 10 (|u[1]| + |u[2]| + |u[3]|)]; and when [u[0]] is negative at
    least one of them is negative. *)
Theorem written_commands_nonnegative_when_thrust_dominates (st : State) :
  wf_state st ->
  exists tk st' z e0 e1 e2 e3 l0 l1 l2 l3 u0 u1 u2 u3 f0 f1 f2 f3,
    actuate st = Ok (tk, st') /\
    attitude (get_body_xmat (data (sim st)) "quadrotor"%string)
      = Ok (yaw tk, pitch tk, roll tk) /\
    getitem (get_body_xipos (data (sim st)) "quadrotor"%string) 2 = Ok z /\
    x tk = [z; roll tk; pitch tk; yaw tk] /\
    sub x_d (x tk) = Ok (e tk) /\
    e_last tk = e_glob st /\
    e tk = [e0; e1; e2; e3] /\
    as_vector (e_last tk) = [l0; l1; l2; l3] /\
    e_dot tk = [(e0 - l0) / dt; (e1 - l1) / dt;
                (e2 - l2) / dt; (e3 - l3) / dt] /\
    u tk = [u0; u1; u2; u3] /\
    u0 = 2 * (kpz * e0 + kdz * ((e0 - l0) / dt)) + mass * gravity /\
    u1 = kpphi * e1 + kdphi * ((e1 - l1) / dt) /\
    u2 = kptheta * e2 + kdtheta * ((e2 - l2) / dt) /\
    u3 = kppsi * e3 + kdpsi * ((e3 - l3) / dt) /\
    matmul C_R (u tk) = Ok (F tk) /\
    F tk = [f0; f1; f2; f3] /\
    ctrl (data (sim st')) = [f0; f1; f2; f3] /\
    f0 + f1 + f2 + f3 = u0 /\
    (10 * (Rabs u1 + Rabs u2 + Rabs u3) <= u0 ->
     0 <= f0 /\ 0 <= f1 /\ 0 <= f2 /\ 0 <= f3) /\
    (u0 < 0 -> f0 < 0 \/ f1 < 0 \/ f2 < 0 \/ f3 < 0).
Proof.
  intros Hwf.
  destruct (actuate_total st Hwf) as (tk & st' & Hact & Hspec & Hctrl & _).
  destruct (tick_closed_form _ _ tk (proj2 Hwf) Hspec)
    as (z & e0 & e1 & e2 & e3 & l0 & l1 & l2 & l3 & u0 & u1 & u2 & u3
        & Hatt & Hz & Hx & Hsub & Hlast & Herr & Hl & Hdot & Hu
        & Hu0 & Hu1 & Hu2 & Hu3 & HF).
  assert (Hmix : matmul C_R (u tk) = Ok (F tk)) by apply Hspec.
  exists tk, st', z, e0, e1, e2, e3, l0, l1, l2, l3, u0, u1, u2, u3.
  do 4 eexists.
  split; [exact Hact | ]. split; [exact Hatt | ]. split; [exact Hz | ].
  split; [exact Hx | ]. split; [exact Hsub | ]. split; [exact Hlast | ].
  split; [exact Herr | ]. split; [exact Hl | ]. split; [exact Hdot | ].
  split; [exact Hu | ]. split; [exact Hu0 | ]. split; [exact Hu1 | ].
  split; [exact Hu2 | ]. split; [exact Hu3 | ].
  split; [exact Hmix | ]. split; [exact HF | ].
  split; [rewrite Hctrl; exact HF | ].
  apply mix_signs. reflexivity.
Qed.

(** ** The round trip through the rotation matrix *)

(** C8.  For every roll, pitch and yaw in the principal range, with the
    pitch away from +-PI/2, the decomposition applied to the rotation matrix
    built from the triple gives the triple back. *)
Theorem attitude_round_trip (roll0 pitch0 yaw0 : R) :
  principal_range roll0 pitch0 yaw0 ->
  attitude (rotation_of_rpy roll0 pitch0 yaw0) = Ok (yaw0, pitch0, roll0).
Proof.
  intros (Hroll & Hpitch & Hyaw).
  pose proof PI_RGT_0 as Hpi.
  assert (Hc : 0 < cos pitch0) by (apply cos_gt_0; lra).
  unfold rotation_of_rpy. rewrite attitude_entries.
  assert (Hy : arctan2 (sin yaw0 * cos pitch0) (cos yaw0 * cos pitch0)
               = yaw0).
  { rewrite (Rmult_comm (sin yaw0)), (Rmult_comm (cos yaw0)).
    apply arctan2_polar; assumption. }
  assert (Hr : arctan2 (cos pitch0 * sin roll0) (cos pitch0 * cos roll0)
               = roll0).
  { apply arctan2_polar; assumption. }
  assert (Hp : arctan2 (- - sin pitch0)
                 (sqrt ((cos pitch0 * sin roll0) ^ 2
                        + (cos pitch0 * cos roll0) ^ 2))
               = pitch0).
  { replace ((cos pitch0 * sin roll0) ^ 2 + (cos pitch0 * cos roll0) ^ 2)
      with (cos pitch0 ^ 2).
    - rewrite sqrt_pow2 by lra. rewrite Ropp_involutive.
      replace (sin pitch0) with (1 * sin pitch0) by ring.
      replace (cos pitch0) with (1 * cos pitch0) by ring.
      apply arctan2_polar; lra.
    - pose proof (sin2_cos2 roll0) as Hsc. unfold Rsqr in Hsc.
      replace ((cos pitch0 * sin roll0) ^ 2 + (cos pitch0 * cos roll0) ^ 2)
        with (cos pitch0 ^ 2
              * (sin roll0 * sin roll0 + cos roll0 * cos roll0)) by ring.
      rewrite Hsc. ring. }
  rewrite Hy, Hp, Hr. reflexivity.
Qed.

(** ** The derivative across ticks, and the length of a run *)

Section Run.

Variable mj_step : MjData -> MjData.
Hypothesis mj_step_wf : forall d, wf_data d -> wf_data (mj_step d).

(** C7.  On the first tick the previous error is the initial zero, so the
    derivative is [e / dt] with [dt = 0.001], for the error [e = x_d - x]
    read from the pose; on a tick that follows another one, the previous
    error is exactly the error vector of that tick, and the derivative is
    [(e - e_last) / dt], entry by entry. *)
Theorem derivative_is_backward_difference
    (env0 : option string) (d0 : MjData) (st : State) :
  wf_data d0 -> wf_state st ->
  (exists tk st1 brk z e0 e1 e2 e3,
      body mj_step env0 (init d0) = Ok (tk, st1, brk) /\
      attitude (get_body_xmat d0 "quadrotor"%string)
        = Ok (yaw tk, pitch tk, roll tk) /\
      getitem (get_body_xipos d0 "quadrotor"%string) 2 = Ok z /\
      x tk = [z; roll tk; pitch tk; yaw tk] /\
      sub x_d (x tk) = Ok (e tk) /\
      e tk = [e0; e1; e2; e3] /\
      e_last tk = PyInt 0 /\
      dt = 0.001 /\
      e_dot tk = [e0 / dt; e1 / dt; e2 / dt; e3 / dt] /\
      e_dot tk = map (fun v => v / dt) (e tk)) /\
  (exists tk1 st1 brk1 tk2 st2 brk2 z1 z2 a0 a1 a2 a3 b0 b1 b2 b3,
      body mj_step env0 st = Ok (tk1, st1, brk1) /\
      body mj_step env0 st1 = Ok (tk2, st2, brk2) /\
      attitude (get_body_xmat (data (sim st)) "quadrotor"%string)
        = Ok (yaw tk1, pitch tk1, roll tk1) /\
      getitem (get_body_xipos (data (sim st)) "quadrotor"%string) 2 = Ok z1 /\
      x tk1 = [z1; roll tk1; pitch tk1; yaw tk1] /\
      sub x_d (x tk1) = Ok (e tk1) /\
      attitude (get_body_xmat (data (sim st1)) "quadrotor"%string)
        = Ok (yaw tk2, pitch tk2, roll tk2) /\
      getitem (get_body_xipos (data (sim st1)) "quadrotor"%string) 2 = Ok z2 /\
      x tk2 = [z2; roll tk2; pitch tk2; yaw tk2] /\
      sub x_d (x tk2) = Ok (e tk2) /\
      e tk1 = [a0; a1; a2; a3] /\
      e tk2 = [b0; b1; b2; b3] /\
      e_last tk2 = NdArray (e tk1) /\
      e_dot tk2 = [(b0 - a0) / dt; (b1 - a1) / dt;
                   (b2 - a2) / dt; (b3 - a3) / dt] /\
      e_dot tk2 =
        map (fun v => v / dt) (zip_with Rminus (e tk2) (e tk1))).
Proof.
  intros Hd0 Hwf. split.
  - destruct (body_total mj_step mj_step_wf env0 _ (init_wf d0 Hd0))
      as (tk & st1 & Hbody & Hspec & _).
    destruct (tick_closed_form (PyInt 0) d0 tk I Hspec)
      as (z & e0 & e1 & e2 & e3 & l0 & l1 & l2 & l3 & u0 & u1 & u2 & u3
          & Hatt & Hz & Hx & Hsub & Hlast & Herr & Hl & Hdot & _).
    simpl in Hlast. rewrite Hlast in Hl. simpl in Hl.
    injection Hl as <- <- <- <-.
    assert (Hdot' : e_dot tk = [e0 / dt; e1 / dt; e2 / dt; e3 / dt]).
    { rewrite Hdot. unfold dt. vec_eq. }
    exists tk, st1. eexists. exists z, e0, e1, e2, e3.
    split; [exact Hbody | ]. split; [exact Hatt | ]. split; [exact Hz | ].
    split; [exact Hx | ]. split; [exact Hsub | ]. split; [exact Herr | ].
    split; [exact Hlast | ]. split; [reflexivity | ].
    split; [exact Hdot' | ].
    rewrite Hdot', Herr. reflexivity.
  - destruct (body_total mj_step mj_step_wf env0 st Hwf)
      as (tk1 & st1 & Hbody1 & Hspec1 & Hwf1 & He1 & _).
    destruct (body_total mj_step mj_step_wf env0 st1 Hwf1)
      as (tk2 & st2 & Hbody2 & Hspec2 & _).
    destruct (tick_closed_form _ _ tk1 (proj2 Hwf) Hspec1)
      as (z1 & a0 & a1 & a2 & a3 & k0 & k1 & k2 & k3 & v0 & v1 & v2 & v3
          & Hatt1 & Hz1 & Hx1 & Hsub1 & _ & Herr1 & _).
    destruct (tick_closed_form _ _ tk2 (proj2 Hwf1) Hspec2)
      as (z2 & b0 & b1 & b2 & b3 & l0 & l1 & l2 & l3 & u0 & u1 & u2 & u3
          & Hatt2 & Hz2 & Hx2 & Hsub2 & Hlast2 & Herr2 & Hl2 & Hdot2 & _).
    rewrite He1 in Hlast2. rewrite Hlast2 in Hl2. simpl in Hl2.
    rewrite Herr1 in Hl2. injection Hl2 as <- <- <- <-.
    exists tk1, st1. eexists. exists tk2, st2. eexists.
    exists z1, z2, a0, a1, a2, a3, b0, b1, b2, b3.
    split; [exact Hbody1 | ]. split; [exact Hbody2 | ].
    split; [exact Hatt1 | ]. split; [exact Hz1 | ]. split; [exact Hx1 | ].
    split; [exact Hsub1 | ].
    split; [exact Hatt2 | ]. split; [exact Hz2 | ]. split; [exact Hx2 | ].
    split; [exact Hsub2 | ].
    split; [exact Herr1 | ]. split; [exact Herr2 | ].
    split; [exact Hlast2 | ]. split; [exact Hdot2 | ].
    rewrite Hdot2, Herr1, Herr2. reflexivity.
Qed.

(** C4.  With the test flag set the loop makes more than 100 simulation
    steps and then leaves; with the flag unset it never leaves: however
    long it is watched, it is still looping. *)
Theorem loop_ends_only_under_test_flag (d0 : MjData) :
  wf_data d0 ->
  (forall flag : string,
      exists (n : nat) (st : State),
        (100 < n)%nat /\
        nstep (sim st) = n /\
        forall fuel, (n <= fuel)%nat ->
                     run mj_step (Some flag) fuel d0 = Exited n st) /\
  (forall fuel : nat,
      exists st : State,
        run mj_step None fuel d0 = Looping fuel st /\
        nstep (sim st) = fuel).
Proof.
  intros Hd0. split.
  - intros flag.
    destruct (loop_exits mj_step mj_step_wf (Some flag) 100 0
                (init d0) (init_wf d0 Hd0))
      as (st & _ & Hn & Hloop); [reflexivity | reflexivity | ].
    exists 101%nat, st. split; [lia | ]. split; [exact Hn | ].
    intros fuel Hfuel. unfold run. apply Hloop. lia.
  - intros fuel.
    destruct (loop_continues mj_step mj_step_wf None fuel 0 (init d0)
                (init_wf d0 Hd0))
      as (st & Hloop & _ & _ & Hn); [left; reflexivity | ].
    exists st. split; [exact Hloop | exact Hn].
Qed.

(** C10.  With the test flag set the loop body runs exactly 101 times: the
    counter starts at 0, a pass adds one to it after the actuator writes,
    and the loop leaves at the first pass after whose increment the
    counter exceeds 100. *)
Theorem test_run_makes_101_passes (flag : string) (d0 : MjData) :
  wf_data d0 ->
  t (init d0) = 0%Z /\
  (forall st, wf_state st ->
      exists tk sta st',
        actuate st = Ok (tk, sta) /\ t sta = t st /\
        body mj_step (Some flag) st = Ok (tk, st', (100 <? t st')%Z) /\
        t st' = (t st + 1)%Z) /\
  (forall fuel, (fuel <= 100)%nat ->
      exists st,
        run mj_step (Some flag) fuel d0 = Looping fuel st /\
        t st = Z.of_nat fuel) /\
  (exists st,
      t st = 101%Z /\
      forall fuel, (101 <= fuel)%nat ->
                   run mj_step (Some flag) fuel d0 = Exited 101 st).
Proof.
  intros Hd0. split; [reflexivity | ]. split; [ | split].
  - intros st Hwf.
    destruct (actuate_total st Hwf)
      as (tk & sta & Hact & _ & _ & _ & _ & _ & Hta & _).
    destruct (body_total mj_step mj_step_wf (Some flag) st Hwf)
      as (tk' & st' & Hbody & _ & _ & _ & Ht' & _).
    assert (Htk : tk' = tk).
    { unfold body in Hbody. rewrite Hact in Hbody.
      cbv beta iota delta [bind] in Hbody. congruence. }
    subst tk'. exists tk, sta, st'.
    split; [exact Hact | ]. split; [exact Hta | ].
    split; [ | exact Ht'].
    rewrite Hbody, Ht'. simpl. rewrite andb_true_r. reflexivity.
  - intros fuel Hfuel.
    destruct (loop_continues mj_step mj_step_wf (Some flag) fuel 0
                (init d0) (init_wf d0 Hd0))
      as (st & Hloop & _ & Ht & _); [right; simpl; lia | ].
    exists st. split; [exact Hloop | ]. rewrite Ht. simpl. lia.
  - destruct (loop_exits mj_step mj_step_wf (Some flag) 100 0
                (init d0) (init_wf d0 Hd0))
      as (st & Ht & _ & Hloop); [reflexivity | reflexivity | ].
    exists st. split; [exact Ht | ].
    intros fuel Hfuel. unfold run. apply Hloop. lia.
Qed.

End Run.

(** ** The properties at sample data *)

Lemma rest_data_wf : wf_data rest_data.
Proof. unfold wf_data. simpl. repeat split; repeat constructor. Qed.

Lemma hold_still_wf (d : MjData) : wf_data d -> wf_data (hold_still d).
Proof. intros Hd. exact Hd. Qed.

Lemma overshoot_state_wf : wf_state overshoot_state.
Proof.
  split; [ | reflexivity].
  unfold wf_data. simpl. repeat split; repeat constructor.
Qed.

Lemma written_commands_follow_formula_witness :
  wf_state (init rest_data) /\
  exists tk st' z e0 e1 e2 e3 l0 l1 l2 l3 u0 u1 u2 u3,
    actuate (init rest_data) = Ok (tk, st') /\
    attitude (get_body_xmat (data (sim (init rest_data))) "quadrotor"%string)
      = Ok (yaw tk, pitch tk, roll tk) /\
    getitem (get_body_xipos (data (sim (init rest_data))) "quadrotor"%string) 2 = Ok z /\
    x tk = [z; roll tk; pitch tk; yaw tk] /\
    sub x_d (x tk) = Ok (e tk) /\
    e_last tk = e_glob (init rest_data) /\
    e tk = [e0; e1; e2; e3] /\
    as_vector (e_last tk) = [l0; l1; l2; l3] /\
    e_dot tk = [(e0 - l0) / dt; (e1 - l1) / dt;
                (e2 - l2) / dt; (e3 - l3) / dt] /\
    u tk = [u0; u1; u2; u3] /\
    u0 = 2 * (kpz * e0 + kdz * ((e0 - l0) / dt)) + mass * gravity /\
    u1 = kpphi * e1 + kdphi * ((e1 - l1) / dt) /\
    u2 = kptheta * e2 + kdtheta * ((e2 - l2) / dt) /\
    u3 = kppsi * e3 + kdpsi * ((e3 - l3) / dt) /\
    e_dot tk = finite_difference (e tk) (e_last tk) dt /\
    F tk = [ a * u0 + b * u1 - b * u2 - c * u3;
        a * u0 - b * u1 - b * u2 + c * u3;
        a * u0 - b * u1 + b * u2 - c * u3;
        a * u0 + b * u1 + b * u2 + c * u3 ] /\
    ctrl (data (sim st')) = F tk /\
    ctrl (data (sim st')) =
      mat_vec C_R
        (vec_add (vec_add (mat_vec K_p (e tk)) (mat_vec K_d (e_dot tk)))
                 [kpz * e0 + kdz * ((e0 - l0) / dt) + mass * gravity;
                  0; 0; 0]).
Proof.
  split.
  - apply init_wf. exact rest_data_wf.
  - apply (written_commands_follow_formula (init rest_data)).
    apply init_wf. exact rest_data_wf.
Defined.

Lemma altitude_channel_doubled_witness :
  List.length [0.5; 0; 0; 0] = 4%nat /\
  List.length [500; 0; 0; 0] = 4%nat /\
  exists pd uv,
    pd_law [0.5; 0; 0; 0] [500; 0; 0; 0] = Ok pd /\
    pd = vec_add (mat_vec K_p [0.5; 0; 0; 0]) (mat_vec K_d [500; 0; 0; 0]) /\
    weight_compensation pd = Ok uv /\
    List.length uv = 4%nat /\
    nth 0 uv 0 = nth 0 pd 0 + (nth 0 pd 0 + mass * gravity) /\
    nth 0 uv 0 = 2 * nth 0 pd 0 + mass * gravity /\
    (forall i, (1 <= i <= 3)%nat -> nth i uv 0 = nth i pd 0).
Proof.
  split; [reflexivity | ]. split; [reflexivity | ].
  apply (altitude_channel_doubled [0.5; 0; 0; 0] [500; 0; 0; 0]);
    reflexivity.
Defined.

Lemma state_vector_from_pose_witness :
  get_body_xmat rest_data "quadrotor"%string =
    [ [1; 0; 0]; [0; 1; 0]; [0; 0; 1] ] /\
  get_body_xipos rest_data "quadrotor"%string = [0; 0; 0] /\
  wf_e (PyInt 0) /\
  exists tk,
    control (PyInt 0) rest_data = Ok tk /\
    rotmat tk = [ [1; 0; 0]; [0; 1; 0]; [0; 0; 1] ] /\
    yaw tk = arctan2 0 1 /\
    pitch tk = arctan2 (- 0) (sqrt (0 ^ 2 + 1 ^ 2)) /\
    roll tk = arctan2 0 1 /\
    x tk = [0; roll tk; pitch tk; yaw tk].
Proof.
  split; [reflexivity | ]. split; [reflexivity | ]. split; [exact I | ].
  apply (state_vector_from_pose (PyInt 0) rest_data 1 0 0 0 1 0 0 0 1 0 0 0);
    [reflexivity | reflexivity | exact I].
Defined.

Lemma written_commands_nonnegative_when_thrust_dominates_witness :
  wf_state (init rest_data) /\
  exists tk st' z e0 e1 e2 e3 l0 l1 l2 l3 u0 u1 u2 u3 f0 f1 f2 f3,
    actuate (init rest_data) = Ok (tk, st') /\
    attitude (get_body_xmat (data (sim (init rest_data))) "quadrotor"%string)
      = Ok (yaw tk, pitch tk, roll tk) /\
    getitem (get_body_xipos (data (sim (init rest_data))) "quadrotor"%string) 2 = Ok z /\
    x tk = [z; roll tk; pitch tk; yaw tk] /\
    sub x_d (x tk) = Ok (e tk) /\
    e_last tk = e_glob (init rest_data) /\
    e tk = [e0; e1; e2; e3] /\
    as_vector (e_last tk) = [l0; l1; l2; l3] /\
    e_dot tk = [(e0 - l0) / dt; (e1 - l1) / dt;
                (e2 - l2) / dt; (e3 - l3) / dt] /\
    u tk = [u0; u1; u2; u3] /\
    u0 = 2 * (kpz * e0 + kdz * ((e0 - l0) / dt)) + mass * gravity /\
    u1 = kpphi * e1 + kdphi * ((e1 - l1) / dt) /\
    u2 = kptheta * e2 + kdtheta * ((e2 - l2) / dt) /\
    u3 = kppsi * e3 + kdpsi * ((e3 - l3) / dt) /\
    matmul C_R (u tk) = Ok (F tk) /\
    F tk = [f0; f1; f2; f3] /\
    ctrl (data (sim st')) = [f0; f1; f2; f3] /\
    f0 + f1 + f2 + f3 = u0 /\
    (10 * (Rabs u1 + Rabs u2 + Rabs u3) <= u0 ->
     0 <= f0 /\ 0 <= f1 /\ 0 <= f2 /\ 0 <= f3) /\
    (u0 < 0 -> f0 < 0 \/ f1 < 0 \/ f2 < 0 \/ f3 < 0).
Proof.
  split.
  - apply init_wf. exact rest_data_wf.
  - apply (written_commands_nonnegative_when_thrust_dominates
             (init rest_data)).
    apply init_wf. exact rest_data_wf.
Defined.

Lemma hover_at_target_is_gravity_compensation_witness :
  get_body_xmat (hover_data 0.5) "quadrotor"%string = identity3 /\
  get_body_xipos (hover_data 0.5) "quadrotor"%string
    = [0; 0; nth 0 x_d 0] /\
  wf_e (PyInt 0) /\
  nth 0 x_d 0 = 0.5 /\
  exists tk,
    control (PyInt 0) (hover_data 0.5) = Ok tk /\
    e tk = [0; 0; 0; 0] /\
    (PyInt 0 = PyInt 0 \/ PyInt 0 = NdArray [0; 0; 0; 0] ->
     e_dot tk = [0; 0; 0; 0] /\ u tk = [mass * gravity; 0; 0; 0]).
Proof.
  split; [reflexivity | ]. split; [reflexivity | ]. split; [exact I | ].
  apply (hover_at_target_is_gravity_compensation
           (PyInt 0) (hover_data 0.5) 0 0);
    [reflexivity | reflexivity | exact I].
Defined.

Lemma derivative_is_backward_difference_witness :
  (forall d, wf_data d -> wf_data (hold_still d)) /\
  wf_data rest_data /\
  wf_state overshoot_state /\
  (exists tk st1 brk z e0 e1 e2 e3,
      body hold_still None (init rest_data) = Ok (tk, st1, brk) /\
      attitude (get_body_xmat rest_data "quadrotor"%string)
        = Ok (yaw tk, pitch tk, roll tk) /\
      getitem (get_body_xipos rest_data "quadrotor"%string) 2 = Ok z /\
      x tk = [z; roll tk; pitch tk; yaw tk] /\
      sub x_d (x tk) = Ok (e tk) /\
      e tk = [e0; e1; e2; e3] /\
      e_last tk = PyInt 0 /\
      dt = 0.001 /\
      e_dot tk = [e0 / dt; e1 / dt; e2 / dt; e3 / dt] /\
      e_dot tk = map (fun v => v / dt) (e tk)) /\
  (exists tk1 st1 brk1 tk2 st2 brk2 z1 z2 a0 a1 a2 a3 b0 b1 b2 b3,
      body hold_still None overshoot_state = Ok (tk1, st1, brk1) /\
      body hold_still None st1 = Ok (tk2, st2, brk2) /\
      attitude (get_body_xmat (data (sim overshoot_state)) "quadrotor"%string)
        = Ok (yaw tk1, pitch tk1, roll tk1) /\
      getitem (get_body_xipos (data (sim overshoot_state)) "quadrotor"%string) 2 = Ok z1 /\
      x tk1 = [z1; roll tk1; pitch tk1; yaw tk1] /\
      sub x_d (x tk1) = Ok (e tk1) /\
      attitude (get_body_xmat (data (sim st1)) "quadrotor"%string)
        = Ok (yaw tk2, pitch tk2, roll tk2) /\
      getitem (get_body_xipos (data (sim st1)) "quadrotor"%string) 2 = Ok z2 /\
      x tk2 = [z2; roll tk2; pitch tk2; yaw tk2] /\
      sub x_d (x tk2) = Ok (e tk2) /\
      e tk1 = [a0; a1; a2; a3] /\
      e tk2 = [b0; b1; b2; b3] /\
      e_last tk2 = NdArray (e tk1) /\
      e_dot tk2 = [(b0 - a0) / dt; (b1 - a1) / dt;
                   (b2 - a2) / dt; (b3 - a3) / dt] /\
      e_dot tk2 =
        map (fun v => v / dt) (zip_with Rminus (e tk2) (e tk1))).
Proof.
  split; [exact hold_still_wf | ]. split; [exact rest_data_wf | ].
  split; [exact overshoot_state_wf | ].
  apply (derivative_is_backward_difference hold_still hold_still_wf None
           rest_data overshoot_state rest_data_wf overshoot_state_wf).
Defined.

Lemma attitude_round_trip_witness :
  principal_range (PI / 6) (- (PI / 4)) PI /\
  attitude (rotation_of_rpy (PI / 6) (- (PI / 4)) PI)
    = Ok (PI, - (PI / 4), PI / 6).
Proof.
  assert (Hrange : principal_range (PI / 6) (- (PI / 4)) PI).
  { pose proof PI_RGT_0 as Hpi. unfold principal_range. lra. }
  split; [exact Hrange | ].
  apply (attitude_round_trip (PI / 6) (- (PI / 4)) PI). exact Hrange.
Defined.

Lemma total_thrust_is_altitude_command_witness :
  List.length [16.943; 0.1; -0.2; 0.3] = 4%nat /\
  exists fv,
    matmul C_R [16.943; 0.1; -0.2; 0.3] = Ok fv /\
    List.length fv = 4%nat /\
    nth 0 fv 0 + nth 1 fv 0 + nth 2 fv 0 + nth 3 fv 0
      = nth 0 [16.943; 0.1; -0.2; 0.3] 0 /\
    col_sum C_R 0 = 4 * a /\ 4 * a = 1 /\
    col_sum C_R 1 = 0 /\ col_sum C_R 2 = 0 /\ col_sum C_R 3 = 0.
Proof.
  split; [reflexivity | ].
  apply (total_thrust_is_altitude_command [16.943; 0.1; -0.2; 0.3]).
  reflexivity.
Defined.

Lemma loop_ends_only_under_test_flag_witness :
  (forall d, wf_data d -> wf_data (hold_still d)) /\
  wf_data rest_data /\
  (forall flag : string,
      exists (n : nat) (st : State),
        (100 < n)%nat /\
        nstep (sim st) = n /\
        forall fuel, (n <= fuel)%nat ->
                     run hold_still (Some flag) fuel rest_data
                     = Exited n st) /\
  (forall fuel : nat,
      exists st : State,
        run hold_still None fuel rest_data = Looping fuel st /\
        nstep (sim st) = fuel).
Proof.
  split; [exact hold_still_wf | ]. split; [exact rest_data_wf | ].
  apply (loop_ends_only_under_test_flag hold_still hold_still_wf rest_data
           rest_data_wf).
Defined.

Lemma test_run_makes_101_passes_witness :
  (forall d, wf_data d -> wf_data (hold_still d)) /\
  wf_data rest_data /\
  t (init rest_data) = 0%Z /\
  (forall st, wf_state st ->
      exists tk sta st',
        actuate st = Ok (tk, sta) /\ t sta = t st /\
        body hold_still (Some "1"%string) st
          = Ok (tk, st', (100 <? t st')%Z) /\
        t st' = (t st + 1)%Z) /\
  (forall fuel, (fuel <= 100)%nat ->
      exists st,
        run hold_still (Some "1"%string) fuel rest_data = Looping fuel st /\
        t st = Z.of_nat fuel) /\
  (exists st,
      t st = 101%Z /\
      forall fuel, (101 <= fuel)%nat ->
                   run hold_still (Some "1"%string) fuel rest_data
                   = Exited 101 st).
Proof.
  split; [exact hold_still_wf | ]. split; [exact rest_data_wf | ].
  apply (test_run_makes_101_passes hold_still hold_still_wf "1"%string
           rest_data rest_data_wf).
Defined.


(** * Further properties of the script *)

(** ** More on the arctangent of two arguments *)

Lemma arctan2_origin : arctan2 0 0 = 0.
Proof.
  unfold arctan2.
  destruct (Rlt_dec 0 0) as [Hp | _]; [lra | reflexivity].
Qed.

Lemma atan_nonpos (v : R) : v <= 0 -> atan v <= 0.
Proof.
  intros [Hlt | ->].
  - rewrite <- atan_0. left. apply atan_increasing. exact Hlt.
  - rewrite atan_0. lra.
Qed.

Lemma atan_pos (v : R) : 0 < v -> 0 < atan v.
Proof. intros Hv. rewrite <- atan_0. apply atan_increasing. exact Hv. Qed.

Lemma quotient_nonpos (y x : R) : x < 0 -> 0 <= y -> y / x <= 0.
Proof.
  intros Hx Hy. unfold Rdiv.
  assert (Hi : / x < 0) by (apply Rinv_lt_0_compat; exact Hx).
  nra.
Qed.

Lemma quotient_pos (y x : R) : x < 0 -> y < 0 -> 0 < y / x.
Proof.
  intros Hx Hy. unfold Rdiv.
  assert (Hi : / x < 0) by (apply Rinv_lt_0_compat; exact Hx).
  nra.
Qed.

(** The angle is always in (-PI, PI]. *)
Lemma arctan2_range (y x : R) : - PI < arctan2 y x <= PI.
Proof.
  pose proof PI_RGT_0 as Hpi.
  destruct (Rlt_dec 0 x) as [Hx | Hx].
  - rewrite arctan2_right by exact Hx.
    pose proof (atan_bound (y / x)). lra.
  - destruct (Rlt_dec x 0) as [Hx' | Hx'].
    + destruct (Rle_dec 0 y) as [Hy | Hy].
      * rewrite arctan2_left_up by assumption.
        pose proof (atan_bound (y / x)).
        pose proof (atan_nonpos _ (quotient_nonpos y x Hx' Hy)). lra.
      * rewrite arctan2_left_down by lra.
        pose proof (atan_bound (y / x)).
        assert (Hq : 0 < y / x) by (apply quotient_pos; lra).
        pose proof (atan_pos _ Hq). lra.
    + assert (Hx0 : x = 0) by lra. subst x.
      destruct (Rlt_dec 0 y) as [Hy | Hy].
      * rewrite arctan2_up by exact Hy. lra.
      * destruct (Rlt_dec y 0) as [Hy' | Hy'].
        -- rewrite arctan2_down by exact Hy'. lra.
        -- assert (Hy0 : y = 0) by lra. subst y.
           rewrite arctan2_origin. lra.
Qed.

(** In the closed right half plane the angle is in [-PI/2, PI/2]. *)
Lemma arctan2_range_right (y x : R) :
  0 <= x -> - (PI / 2) <= arctan2 y x <= PI / 2.
Proof.
  intros Hx. pose proof PI_RGT_0 as Hpi.
  destruct (Rlt_dec 0 x) as [Hx' | Hx'].
  - rewrite arctan2_right by exact Hx'.
    pose proof (atan_bound (y / x)). lra.
  - assert (Hx0 : x = 0) by lra. subst x.
    destruct (Rlt_dec 0 y) as [Hy | Hy].
    + rewrite arctan2_up by exact Hy. lra.
    + destruct (Rlt_dec y 0) as [Hy' | Hy'].
      * rewrite arctan2_down by exact Hy'. lra.
      * assert (Hy0 : y = 0) by lra. subst y.
        rewrite arctan2_origin. lra.
Qed.

(** ** The decomposition of the orientation matrix *)

(** What a successful decomposition has read, and how it combined it. *)
Lemma attitude_inv (m : matrix) (y p r : R) :
  attitude m = Ok (y, p, r) ->
  exists r10 r00 r20 r21 r22,
    getitem2 m 1 0 = Ok r10 /\ getitem2 m 0 0 = Ok r00 /\
    getitem2 m 2 0 = Ok r20 /\ getitem2 m 2 1 = Ok r21 /\
    getitem2 m 2 2 = Ok r22 /\
    y = arctan2 r10 r00 /\
    p = arctan2 (- r20) (sqrt (r21 ^ 2 + r22 ^ 2)) /\
    r = arctan2 r21 r22.
Proof.
  unfold attitude.
  destruct (getitem2 m 1 0) as [r10 | ]; [ | discriminate].
  destruct (getitem2 m 0 0) as [r00 | ]; [ | discriminate].
  destruct (getitem2 m 2 0) as [r20 | ]; [ | discriminate].
  destruct (getitem2 m 2 1) as [r21 | ]; [ | discriminate].
  destruct (getitem2 m 2 2) as [r22 | ]; [ | discriminate].
  cbv beta iota zeta delta [bind]. intros Heq. injection Heq as <- <- <-.
  exists r10, r00, r20, r21, r22. repeat split.
Qed.

(** X1.  Whatever matrix the simulator hands over, the angles the script
    extracts are in range: yaw and roll in (-PI, PI], pitch in
    [-PI/2, PI/2]. *)
Theorem attitude_angles_in_range (m : matrix) (y p r : R) :
  attitude m = Ok (y, p, r) ->
  - PI < y <= PI /\ - (PI / 2) <= p <= PI / 2 /\ - PI < r <= PI.
Proof.
  intros Hatt.
  destruct (attitude_inv m y p r Hatt)
    as (r10 & r00 & r20 & r21 & r22 & _ & _ & _ & _ & _ & -> & -> & ->).
  split; [apply arctan2_range | ].
  split; [apply arctan2_range_right; apply sqrt_pos | apply arctan2_range].
Qed.

Lemma attitude_angles_in_range_witness :
  attitude identity3
    = Ok (arctan2 0 1, arctan2 (- 0) (sqrt (0 ^ 2 + 1 ^ 2)), arctan2 0 1) /\
  (- PI < arctan2 0 1 <= PI /\
   - (PI / 2) <= arctan2 (- 0) (sqrt (0 ^ 2 + 1 ^ 2)) <= PI / 2 /\
   - PI < arctan2 0 1 <= PI).
Proof.
  split; [reflexivity | ].
  apply (attitude_angles_in_range identity3). reflexivity.
Defined.

(** ** The mixing matrix, read backwards *)

(** X4.  The rotor commands carry each torque channel in a difference of
    rotor pairs: rotors 0 and 3 against 1 and 2 give ten times the roll
    channel, rotors 2 and 3 against 0 and 1 ten times the pitch channel,
    rotors 1 and 3 against 0 and 2 ten times the yaw channel. *)
Theorem mixing_isolates_channels (uv : ndarray) :
  List.length uv = 4%nat ->
  exists fv,
    matmul C_R uv = Ok fv /\
    (nth 0 fv 0 + nth 3 fv 0) - (nth 1 fv 0 + nth 2 fv 0)
      = 10 * nth 1 uv 0 /\
    (nth 2 fv 0 + nth 3 fv 0) - (nth 0 fv 0 + nth 1 fv 0)
      = 10 * nth 2 uv 0 /\
    (nth 1 fv 0 + nth 3 fv 0) - (nth 0 fv 0 + nth 2 fv 0)
      = 10 * nth 3 uv 0.
Proof.
  intros Hu.
  destruct (length4_inv _ Hu) as (u0 & u1 & u2 & u3 & ->).
  eexists. split; [apply mix_entries | ].
  cbv beta iota zeta delta [nth]. unfold a, b, c, L, C.
  repeat split; lra.
Qed.

Lemma mixing_isolates_channels_witness :
  List.length [16.943; 0.1; -0.2; 0.3] = 4%nat /\
  exists fv,
    matmul C_R [16.943; 0.1; -0.2; 0.3] = Ok fv /\
    (nth 0 fv 0 + nth 3 fv 0) - (nth 1 fv 0 + nth 2 fv 0)
      = 10 * nth 1 [16.943; 0.1; -0.2; 0.3] 0 /\
    (nth 2 fv 0 + nth 3 fv 0) - (nth 0 fv 0 + nth 1 fv 0)
      = 10 * nth 2 [16.943; 0.1; -0.2; 0.3] 0 /\
    (nth 1 fv 0 + nth 3 fv 0) - (nth 0 fv 0 + nth 2 fv 0)
      = 10 * nth 3 [16.943; 0.1; -0.2; 0.3] 0.
Proof.
  split; [reflexivity | ].
  apply (mixing_isolates_channels [16.943; 0.1; -0.2; 0.3]). reflexivity.
Defined.

(** ** The actuator writes *)

(** X6.  The four writes replace command slots 0 to 3 and nothing else: on
    a command array of four or more slots they succeed, and the slots from
    4 on keep their values. *)
Theorem write_ctrl_keeps_other_slots (f : ndarray) (d : MjData) :
  List.length f = 4%nat -> (4 <= List.length (ctrl d))%nat ->
  write_ctrl f d =
  Ok (mkData (get_body_xmat d) (get_body_xipos d) (f ++ skipn 4 (ctrl d))).
Proof.
  intros Hf Hc. destruct d as [xm xp cs]. simpl in Hc.
  destruct (length4_inv _ Hf) as (f0 & f1 & f2 & f3 & ->).
  destruct cs as [ | c0 [ | c1 [ | c2 [ | c3 tl]]]]; simpl in Hc; try lia.
  reflexivity.
Qed.

Lemma write_ctrl_keeps_other_slots_witness :
  List.length [1; 2; 3; 4] = 4%nat /\
  le 4 (List.length (ctrl (mkData (fun _ => identity3) (fun _ => [0; 0; 0])
                                  [9; 9; 9; 9; 7; 8]))) /\
  write_ctrl [1; 2; 3; 4]
    (mkData (fun _ => identity3) (fun _ => [0; 0; 0]) [9; 9; 9; 9; 7; 8]) =
  Ok (mkData (fun _ => identity3) (fun _ => [0; 0; 0]) [1; 2; 3; 4; 7; 8]).
Proof.
  split; [reflexivity | ]. split; [simpl; lia | ].
  apply (write_ctrl_keeps_other_slots [1; 2; 3; 4]
           (mkData (fun _ => identity3) (fun _ => [0; 0; 0])
                   [9; 9; 9; 9; 7; 8]));
    [reflexivity | simpl; lia].
Defined.

(** X7.  On a command array of fewer than four slots the writes raise
    [IndexError]. *)
Theorem write_ctrl_too_few_slots (f : ndarray) (d : MjData) :
  List.length f = 4%nat -> (List.length (ctrl d) < 4)%nat ->
  write_ctrl f d = Raise IndexError.
Proof.
  intros Hf Hc. destruct d as [xm xp cs]. simpl in Hc.
  destruct (length4_inv _ Hf) as (f0 & f1 & f2 & f3 & ->).
  destruct cs as [ | c0 [ | c1 [ | c2 [ | c3 tl]]]]; simpl in Hc; try lia;
    reflexivity.
Qed.

Lemma write_ctrl_too_few_slots_witness :
  List.length [1; 2; 3; 4] = 4%nat /\
  lt (List.length (ctrl (mkData (fun _ => identity3) (fun _ => [0; 0; 0])
                                [9; 9; 9]))) 4 /\
  write_ctrl [1; 2; 3; 4]
    (mkData (fun _ => identity3) (fun _ => [0; 0; 0]) [9; 9; 9])
  = Raise IndexError.
Proof.
  split; [reflexivity | ]. split; [simpl; lia | ].
  apply (write_ctrl_too_few_slots [1; 2; 3; 4]
           (mkData (fun _ => identity3) (fun _ => [0; 0; 0]) [9; 9; 9]));
    [reflexivity | simpl; lia].
Defined.

(** ** Closed forms of the commands *)

(** X8.  In a steady hover with the identity orientation at height [z] (the
    same error on this tick and the previous one) the derivative vanishes
    and all four rotors get the same command, [1.73575 - 2 z]; it is
    non-negative exactly for [z <= 0.867875], and within the control range
    of the motors exactly for [-4.132125 <= z <= 0.867875]. *)
Theorem steady_hover_commands (d : MjData) (p0 p1 z : R) :
  get_body_xmat d "quadrotor"%string = identity3 ->
  get_body_xipos d "quadrotor"%string = [p0; p1; z] ->
  exists tk,
    control (NdArray [0.5 - z; 0; 0; 0]) d = Ok tk /\
    e tk = [0.5 - z; 0; 0; 0] /\
    e_dot tk = [0; 0; 0; 0] /\
    F tk = [1.73575 - 2 * z; 1.73575 - 2 * z;
            1.73575 - 2 * z; 1.73575 - 2 * z] /\
    (0 <= 1.73575 - 2 * z <-> z <= 0.867875) /\
    (fst ctrlrange <= 1.73575 - 2 * z <= snd ctrlrange
     <-> -4.132125 <= z <= 0.867875).
Proof.
  intros Hxm Hxp.
  destruct (hover_tick (NdArray [0.5 - z; 0; 0; 0]) d p0 p1 z Hxm Hxp)
    as (tk & Hctl & Herr & Hdot & Hu & HF); [reflexivity | ].
  assert (Hdot0 : e_dot tk = [0; 0; 0; 0]).
  { rewrite Hdot. unfold dt.
    cbv beta iota zeta delta [finite_difference as_vector zip_with map].
    vec_eq. }
  specialize (Hu _ _ _ _ Hdot0). specialize (HF _ _ _ _ Hu).
  exists tk. split; [exact Hctl | ]. split; [exact Herr | ].
  split; [exact Hdot0 | ].
  split.
  - rewrite HF.
    unfold a, b, c, L, C, kpz, kdz, kdphi, kdtheta, kdpsi, mass, gravity.
    vec_eq.
  - unfold ctrlrange. simpl. split; split; intros; lra.
Qed.

Lemma steady_hover_commands_witness :
  get_body_xmat (hover_data 0.5) "quadrotor"%string = identity3 /\
  get_body_xipos (hover_data 0.5) "quadrotor"%string = [0; 0; 0.5] /\
  exists tk,
    control (NdArray [0.5 - 0.5; 0; 0; 0]) (hover_data 0.5) = Ok tk /\
    e tk = [0.5 - 0.5; 0; 0; 0] /\
    e_dot tk = [0; 0; 0; 0] /\
    F tk = [1.73575 - 2 * 0.5; 1.73575 - 2 * 0.5;
            1.73575 - 2 * 0.5; 1.73575 - 2 * 0.5] /\
    (0 <= 1.73575 - 2 * 0.5 <-> 0.5 <= 0.867875) /\
    (fst ctrlrange <= 1.73575 - 2 * 0.5 <= snd ctrlrange
     <-> -4.132125 <= 0.5 <= 0.867875).
Proof.
  split; [reflexivity | ]. split; [reflexivity | ].
  apply (steady_hover_commands (hover_data 0.5) 0 0 0.5); reflexivity.
Defined.



(** ** Malformed poses *)

Lemma getitem2_raises (m : matrix) (i j : nat) (x : exn) :
  getitem2 m i j = Raise x -> x = IndexError.
Proof.
  unfold getitem2, getitem.
  destruct (nth_error m i) as [row | ]; [ | congruence].
  destruct (nth_error row j); congruence.
Qed.

Lemma attitude_raises (m : matrix) (x : exn) :
  attitude m = Raise x -> x = IndexError.
Proof.
  unfold attitude.
  destruct (getitem2 m 1 0) as [r10 | x1] eqn:H10;
    [ | intros Hx; injection Hx as <-; exact (getitem2_raises _ _ _ _ H10)].
  destruct (getitem2 m 0 0) as [r00 | x2] eqn:H00;
    [ | intros Hx; injection Hx as <-; exact (getitem2_raises _ _ _ _ H00)].
  destruct (getitem2 m 2 0) as [r20 | x3] eqn:H20;
    [ | intros Hx; injection Hx as <-; exact (getitem2_raises _ _ _ _ H20)].
  destruct (getitem2 m 2 1) as [r21 | x4] eqn:H21;
    [ | intros Hx; injection Hx as <-; exact (getitem2_raises _ _ _ _ H21)].
  destruct (getitem2 m 2 2) as [r22 | x5] eqn:H22;
    [ | intros Hx; injection Hx as <-; exact (getitem2_raises _ _ _ _ H22)].
  cbv beta iota zeta delta [bind]. discriminate.
Qed.

Lemma attitude_short (m : matrix) :
  (List.length m < 3)%nat -> attitude m = Raise IndexError.
Proof.
  intros Hlen.
  destruct (attitude m) as [[[y p] r] | x] eqn:Hatt.
  - destruct (attitude_inv m y p r Hatt)
      as (r10 & r00 & r20 & r21 & r22 & _ & _ & H20 & _).
    unfold getitem2 in H20.
    assert (Hnone : nth_error m 2 = None)
      by (apply nth_error_None; lia).
    rewrite Hnone in H20. discriminate.
  - f_equal. exact (attitude_raises m x Hatt).
Qed.

(** X10.  A pose of the wrong shape is not caught: with an orientation
    matrix of fewer than three rows, or a position of fewer than three
    coordinates, the controller raises [IndexError], and the loop dies in
    its first pass, before any simulator step. *)
Theorem short_pose_raises_index_error
    (mj_step : MjData -> MjData) (env : option string) (fuel : nat)
    (d0 : MjData) :
  (List.length (get_body_xmat d0 "quadrotor"%string) < 3)%nat \/
  (List.length (get_body_xipos d0 "quadrotor"%string) < 3)%nat ->
  (forall e_prev, control e_prev d0 = Raise IndexError) /\
  run mj_step env (S fuel) d0 = Crashed 0 IndexError.
Proof.
  intros Hshort.
  assert (Hctl : forall e_prev, control e_prev d0 = Raise IndexError).
  { intros e_prev. unfold control.
    destruct Hshort as [Hm | Hp].
    - rewrite (attitude_short _ Hm). reflexivity.
    - destruct (attitude (get_body_xmat d0 "quadrotor"%string))
        as [[[y p] r] | x] eqn:Hatt.
      + cbv beta iota zeta delta [bind]. unfold getitem.
        assert (Hnone : nth_error (get_body_xipos d0 "quadrotor"%string) 2
                        = None)
          by (apply nth_error_None; lia).
        rewrite Hnone. reflexivity.
      + rewrite (attitude_raises _ x Hatt). reflexivity. }
  split; [exact Hctl | ].
  unfold run, loop, body, actuate, init. simpl.
  rewrite Hctl. reflexivity.
Qed.

Lemma short_pose_raises_index_error_witness :
  ((List.length (get_body_xmat short_pose_data "quadrotor"%string) < 3)%nat
   \/
   (List.length (get_body_xipos short_pose_data "quadrotor"%string) < 3)%nat)
  /\
  (forall e_prev, control e_prev short_pose_data = Raise IndexError) /\
  run hold_still None 1 short_pose_data = Crashed 0 IndexError.
Proof.
  assert (Hshort :
    (List.length (get_body_xmat short_pose_data "quadrotor"%string) < 3)%nat
    \/
    (List.length (get_body_xipos short_pose_data "quadrotor"%string)
     < 3)%nat).
  { left. simpl. lia. }
  split; [exact Hshort | ].
  apply (short_pose_raises_index_error hold_still None 0 short_pose_data).
  exact Hshort.
Defined.

(** ** Runs of the loop *)

Lemma loop_S (mj_step : MjData -> MjData) (env : option string)
    (k n : nat) (st : State) :
  loop mj_step env (S k) n st =
  match body mj_step env st with
  | Raise x => Crashed n x
  | Ok (_, st', brk) =>
      if brk then Exited (S n) st' else loop mj_step env k (S n) st'
  end.
Proof. reflexivity. Qed.

(** The flag enters a pass only through the decision to leave. *)
Lemma body_env (mj_step : MjData -> MjData) (env : option string)
    (st : State) :
  body mj_step env st =
  match body mj_step None st with
  | Ok (tk, st', _) => Ok (tk, st', (100 <? t st')%Z && testing env)
  | Raise x => Raise x
  end.
Proof.
  unfold body. destruct (actuate st) as [[tk st1] | x]; reflexivity.
Qed.

Lemma init_in_step (d0 : MjData) : in_step 0 (init d0).
Proof.
  unfold in_step, init. simpl.
  repeat split; try constructor. intros Hne. contradiction.
Qed.

Section Runs.

Variable mj_step : MjData -> MjData.
Hypothesis mj_step_wf : forall d, wf_data d -> wf_data (mj_step d).

(** A pass keeps the counters and the output in step. *)
Lemma body_in_step (env : option string) (n : nat) (st : State) :
  wf_state st -> in_step n st ->
  exists tk st',
    body mj_step env st = Ok (tk, st', (100 <? t st')%Z && testing env) /\
    wf_state st' /\ in_step (S n) st'.
Proof.
  intros Hwf (Ht & Hn & Hr & Hlen & Hall & _).
  destruct (body_total mj_step mj_step_wf env st Hwf)
    as (tk & st' & Hbody & Hspec & Hwf' & He' & Ht' & Hn' & Hr' & Ho').
  exists tk, st'. rewrite Ht'. split; [exact Hbody | ].
  split; [exact Hwf' | ].
  assert (He4 : List.length (e tk) = 4%nat) by apply Hspec.
  unfold in_step. rewrite Ht', Hn', Hr', Ho', He', Ht, Hn, Hr.
  repeat split.
  - lia.
  - rewrite length_app, Hlen. simpl. lia.
  - apply Forall_app. split; [exact Hall | ].
    constructor; [exact He4 | constructor].
  - intros _. rewrite last_last. reflexivity.
Qed.

(** However long the loop is watched from a well-shaped state, it is found
    looping or gone by [break], in a well-shaped state with the counters in
    step. *)
Lemma loop_outcome (env : option string) (fuel : nat) :
  forall (n : nat) (st : State),
    wf_state st -> in_step n st ->
    exists p st',
      (loop mj_step env fuel n st = Looping p st' \/
       loop mj_step env fuel n st = Exited p st') /\
      wf_state st' /\ in_step p st'.
Proof.
  induction fuel as [ | k IH]; intros n st Hwf Hin.
  - exists n, st. split; [left; reflexivity | split; assumption].
  - destruct (body_in_step env n st Hwf Hin)
      as (tk & st1 & Hbody & Hwf1 & Hin1).
    rewrite loop_S, Hbody.
    destruct ((100 <? t st1)%Z && testing env).
    + exists (S n), st1. split; [right; reflexivity | split; assumption].
    + apply IH; assumption.
Qed.

(** X11.  On well-shaped simulator data the loop never dies of an
    exception, however long it runs and whatever the flag. *)
Theorem run_never_raises (env : option string) (fuel : nat) (d0 : MjData) :
  wf_data d0 ->
  forall (k : nat) (x : exn), run mj_step env fuel d0 <> Crashed k x.
Proof.
  intros Hd0 k x. unfold run.
  destruct (loop_outcome env fuel 0 (init d0)
              (init_wf d0 Hd0) (init_in_step d0))
    as (p & st & [Hrun | Hrun] & _); rewrite Hrun; discriminate.
Qed.

(** X12.  The counters and the output stay in step: after [p] passes the
    tick counter is [p], the simulator has made [p] steps, [p] frames were
    rendered and [p] error vectors printed, each of four entries, and the
    error kept for the next tick is the one printed last. *)
Theorem run_keeps_counters_in_step
    (env : option string) (fuel : nat) (d0 : MjData) :
  wf_data d0 ->
  exists p st,
    (run mj_step env fuel d0 = Looping p st \/
     run mj_step env fuel d0 = Exited p st) /\
    t st = Z.of_nat p /\
    nstep (sim st) = p /\
    nrender (viewer st) = p /\
    List.length (stdout st) = p /\
    Forall (fun v => List.length v = 4%nat) (stdout st) /\
    (p <> O -> e_glob st = NdArray (last (stdout st) [])).
Proof.
  intros Hd0. unfold run.
  destruct (loop_outcome env fuel 0 (init d0)
              (init_wf d0 Hd0) (init_in_step d0))
    as (p & st & Hrun & _ & Hin).
  exists p, st. split; [exact Hrun | exact Hin].
Qed.

(** With the flag set, a loop whose counter is [k] passes short of 100
    leaves in the state the loop without the flag is in after [k + 1]
    passes. *)
Lemma loop_flag_prefix (flag : string) (k : nat) :
  forall (n : nat) (st : State),
    wf_state st ->
    (t st + Z.of_nat k = 100)%Z ->
    exists st',
      loop mj_step None (S k) n st = Looping (n + k + 1) st' /\
      forall fuel, (k < fuel)%nat ->
                   loop mj_step (Some flag) fuel n st
                   = Exited (n + k + 1) st'.
Proof.
  induction k as [ | k IH]; intros n st Hwf Ht.
  - destruct (body_total mj_step mj_step_wf None st Hwf)
      as (tk & st1 & Hbody & _ & Hwf1 & _ & Ht1 & _).
    rewrite andb_false_r in Hbody.
    exists st1. split.
    + rewrite loop_S, Hbody. simpl. f_equal. lia.
    + intros [ | fuel] Hfuel; [lia | ].
      rewrite loop_S, body_env, Hbody.
      assert (Hbrk : (100 <? t st1)%Z && testing (Some flag) = true).
      { simpl. rewrite andb_true_r. apply Z.ltb_lt. lia. }
      rewrite Hbrk. f_equal. lia.
  - destruct (body_total mj_step mj_step_wf None st Hwf)
      as (tk & st1 & Hbody & _ & Hwf1 & _ & Ht1 & _).
    rewrite andb_false_r in Hbody.
    destruct (IH (S n) st1 Hwf1) as (st' & Hnone & Hsome); [lia | ].
    exists st'. split.
    + rewrite loop_S, Hbody, Hnone. f_equal. lia.
    + intros [ | fuel] Hfuel; [lia | ].
      rewrite loop_S, body_env, Hbody.
      assert (Hbrk : (100 <? t st1)%Z && testing (Some flag) = false).
      { apply andb_false_intro1. apply Z.ltb_ge. lia. }
      rewrite Hbrk, Hsome by lia. f_equal. lia.
Qed.

(** X13.  The test mode cuts the run short and changes nothing else: the
    state in which the loop leaves under the flag is the state of the loop
    without the flag after 101 passes, whatever value the flag has. *)
Theorem test_run_is_prefix_of_run (d0 : MjData) :
  wf_data d0 ->
  exists st,
    run mj_step None 101 d0 = Looping 101 st /\
    forall (flag : string) (fuel : nat),
      (101 <= fuel)%nat ->
      run mj_step (Some flag) fuel d0 = Exited 101 st.
Proof.
  intros Hd0. unfold run.
  destruct (loop_flag_prefix EmptyString 100 0 (init d0) (init_wf d0 Hd0))
    as (st & Hnone & _); [reflexivity | ].
  exists st. split; [exact Hnone | ].
  intros flag fuel Hfuel.
  destruct (loop_flag_prefix flag 100 0 (init d0) (init_wf d0 Hd0))
    as (st2 & Hnone2 & Hsome2); [reflexivity | ].
  rewrite Hnone in Hnone2. injection Hnone2 as <-.
  apply Hsome2. lia.
Qed.

(** X14.  Until pass 100 the flag makes no difference at all: watched for
    at most 100 passes, the loop with the flag and the loop without it give
    the same observation. *)
Theorem flag_is_idle_for_100_passes
    (flag : string) (fuel : nat) (d0 : MjData) :
  wf_data d0 -> (fuel <= 100)%nat ->
  run mj_step (Some flag) fuel d0 = run mj_step None fuel d0.
Proof.
  intros Hd0 Hfuel. unfold run.
  assert (Hgen : forall k n st,
             wf_state st -> (t st + Z.of_nat k <= 100)%Z ->
             loop mj_step (Some flag) k n st = loop mj_step None k n st).
  { induction k as [ | k IH]; intros n st Hwf Ht; [reflexivity | ].
    destruct (body_total mj_step mj_step_wf None st Hwf)
      as (tk & st' & Hbody & _ & Hwf' & _ & Ht' & _).
    rewrite andb_false_r in Hbody.
    rewrite !loop_S, body_env, Hbody.
    assert (Hbrk : (100 <? t st')%Z && testing (Some flag) = false).
    { apply andb_false_intro1. apply Z.ltb_ge. lia. }
    rewrite Hbrk. apply IH; [exact Hwf' | lia]. }
  apply Hgen; [apply init_wf; exact Hd0 | simpl; lia].
Qed.

End Runs.

Lemma run_never_raises_witness :
  (forall d, wf_data d -> wf_data (hold_still d)) /\
  wf_data rest_data /\
  forall (k : nat) (x : exn),
    run hold_still (Some "1"%string) 200 rest_data <> Crashed k x.
Proof.
  split; [exact hold_still_wf | ]. split; [exact rest_data_wf | ].
  apply (run_never_raises hold_still hold_still_wf (Some "1"%string) 200
           rest_data rest_data_wf).
Defined.

Lemma run_keeps_counters_in_step_witness :
  (forall d, wf_data d -> wf_data (hold_still d)) /\
  wf_data rest_data /\
  exists p st,
    (run hold_still None 7 rest_data = Looping p st \/
     run hold_still None 7 rest_data = Exited p st) /\
    t st = Z.of_nat p /\
    nstep (sim st) = p /\
    nrender (viewer st) = p /\
    List.length (stdout st) = p /\
    Forall (fun v => List.length v = 4%nat) (stdout st) /\
    (p <> O -> e_glob st = NdArray (last (stdout st) [])).
Proof.
  split; [exact hold_still_wf | ]. split; [exact rest_data_wf | ].
  apply (run_keeps_counters_in_step hold_still hold_still_wf None 7
           rest_data rest_data_wf).
Defined.

Lemma test_run_is_prefix_of_run_witness :
  (forall d, wf_data d -> wf_data (hold_still d)) /\
  wf_data rest_data /\
  exists st,
    run hold_still None 101 rest_data = Looping 101 st /\
    forall (flag : string) (fuel : nat),
      (101 <= fuel)%nat ->
      run hold_still (Some flag) fuel rest_data = Exited 101 st.
Proof.
  split; [exact hold_still_wf | ]. split; [exact rest_data_wf | ].
  apply (test_run_is_prefix_of_run hold_still hold_still_wf rest_data
           rest_data_wf).
Defined.

Lemma flag_is_idle_for_100_passes_witness :
  (forall d, wf_data d -> wf_data (hold_still d)) /\
  wf_data rest_data /\
  (100 <= 100)%nat /\
  run hold_still (Some "1"%string) 100 rest_data
  = run hold_still None 100 rest_data.
Proof.
  split; [exact hold_still_wf | ]. split; [exact rest_data_wf | ].
  split; [lia | ].
  apply (flag_is_idle_for_100_passes hold_still hold_still_wf "1"%string
           100 rest_data rest_data_wf).
  lia.
Defined.
